(** * Mareographic interruption system: a shallow embedding

    The station class [InterruptionSystem] (interruption_system.py) and the
    [StationManager] (station_manager.py) are embedded as functions over
    explicit state.  Python dictionaries are finite maps keyed by strings,
    Python floats are IEEE-754 binary64 numbers, Python integers are [Z].
    A method of the station is a computation in the [Sys] monad below: it
    reads and writes the station object, emits the effects it performs on
    the outside world (console lines, signals, threads) and either returns
    or raises. *)

From Stdlib Require Import ZArith Lia Bool List.
From Stdlib Require Import Floats.
From stdpp Require Import base option list strings gmap.

Local Open Scope string_scope.
Local Open Scope list_scope.

(** ** 1. System base definitions *)

(** [signal.SIGINT], [signal.SIGBREAK], [signal.SIGTERM]. *)
Inductive Signal := SIGINT | SIGBREAK | SIGTERM.

(** [class InterruptionType(Enum)]: the value of a member is a signal. *)
Inductive InterruptionType := SENSOR_FAILURE | EXTREME_CONDITIONS.

Definition InterruptionType_value (t : InterruptionType) : Signal :=
  match t with
  | SENSOR_FAILURE => SIGINT
  | EXTREME_CONDITIONS => SIGBREAK
  end.

(** [class SensorState(Enum)]: the value of a member is a string. *)
Inductive SensorState := FUNCTIONING | READ_FAILURE | DISCONNECTED.

Definition SensorState_value (s : SensorState) : string :=
  match s with
  | FUNCTIONING => "functioning"
  | READ_FAILURE => "read_failure"
  | DISCONNECTED => "disconnected"
  end.

Definition SensorState_eqb (a b : SensorState) : bool :=
  match a, b with
  | FUNCTIONING, FUNCTIONING
  | READ_FAILURE, READ_FAILURE
  | DISCONNECTED, DISCONNECTED => true
  | _, _ => false
  end.

(** [datetime] values are opaque clock readings. *)
Definition datetime := Z.

(** [@dataclass SensorData]. *)
Record SensorData := mkSensorData {
  water_level : float;
  temperature : float;
  pressure : float;
  wind_speed : float;
  state : SensorState;
  timestamp : datetime
}.

(** [@dataclass Interruption]; [sensor_data] is the copy of the reading's
    attribute dictionary, that is the reading itself as a value. *)
Record Interruption := mkInterruption {
  itype : InterruptionType;
  itimestamp : datetime;
  istation_id : string;
  message : string;
  sensor_data : SensorData
}.

(** ** 2. Effects, exceptions and the method monad *)

(** Thread objects are told apart by an identifier. *)
Definition Thread := nat.

(** What may be installed with [signal.signal]. *)
Inductive Handler := SIG_DFL | handle_shutdown | signal_handler.

(** Console lines.  Each constructor is one [print] of the source; the
    numbers a line displays are kept as values. *)
Inductive Line :=
| StartingSystem (station : string)        (* Starting Interruption System - Station: .. *)
| Rule (width : nat)                       (* "=" * width *)
| ConfigurationUpdated (key : string) (value : float)
| InvalidParameter (key : string)
| StoppingSystem
| SystemStopped
| FinalStatisticsTitle
| TotalInterruptions (n : Z)
| SensorFailures (n : Z)
| ExtremeConditionsCount (n : Z)
| StationAdded (station : string).

(** Calls that leave the station object. *)
Inductive Effect :=
| PrintLine (l : Line)
| MonitorHandle (i : Interruption)          (* self.monitor.handle_interruption(i) *)
| RaiseSignal (sig : Signal)                (* signal.raise_signal(sig) *)
| SetSignalHandler (sig : Signal) (h : Handler)
| ThreadStart (t : Thread) (daemon : bool)
| ThreadJoin (t : Thread) (timeout : Z).

Inductive exn := KeyError (key : string).

Inductive Res (A : Type) := Ret (a : A) | Raise (e : exn).
Arguments Ret {A} a.
Arguments Raise {A} e.

(** A method body over an object of type [St]: the outcome, the object
    afterwards (mutations made before a raise persist) and the effects
    emitted, oldest first. *)
Definition M (St A : Type) : Type := St -> Res A * St * list Effect.

Definition ret {St A} (a : A) : M St A := fun s => (Ret a, s, []).

Definition bind {St A B} (m : M St A) (f : A -> M St B) : M St B :=
  fun s =>
    match m s with
    | (Ret a, s1, o1) => let '(r, s2, o2) := f a s1 in (r, s2, o1 ++ o2)
    | (Raise e, s1, o1) => (Raise e, s1, o1)
    end.

Definition raise {St A} (e : exn) : M St A := fun s => (Raise e, s, []).
Definition get {St} : M St St := fun s => (Ret s, s, []).
Definition modify {St} (f : St -> St) : M St unit := fun s => (Ret tt, f s, []).
Definition emit {St} (e : Effect) : M St unit := fun s => (Ret tt, s, [e]).

Declare Scope method_scope.
Delimit Scope method_scope with method.
Notation "'let*' x ':=' m 'in' k" := (bind m (fun x => k))
  (at level 10, x name, m at level 100, k at level 200) : method_scope.
Notation "m ';;;' k" := (bind m (fun _ => k))
  (at level 100, k at level 200, right associativity) : method_scope.
Local Open Scope method_scope.

(** [d[key]] on a dictionary: raises [KeyError] when the key is absent. *)
Definition getitem {St V} (d : gmap string V) (key : string) : M St V :=
  match d !! key with
  | Some v => ret v
  | None => raise (KeyError key)
  end.

Definition outcome {St A} (x : Res A * St * list Effect) : Res A := x.1.1.
Definition after {St A} (x : Res A * St * list Effect) : St := x.1.2.
Definition effects {St A} (x : Res A * St * list Effect) : list Effect := x.2.

(** ** 3. The station class *)

Record InterruptionSystem := mkInterruptionSystem {
  station_id : string;
  running : bool;
  monitor_thread : option Thread;
  _shutdown_requested : bool;
  config : gmap string float;
  statistics : gmap string Z;
  _last_interruption : option Interruption
}.

Definition set_running (b : bool) (s : InterruptionSystem) :=
  mkInterruptionSystem (station_id s) b (monitor_thread s) (_shutdown_requested s)
    (config s) (statistics s) (_last_interruption s).
Definition set_monitor_thread (t : option Thread) (s : InterruptionSystem) :=
  mkInterruptionSystem (station_id s) (running s) t (_shutdown_requested s)
    (config s) (statistics s) (_last_interruption s).
Definition set_shutdown_requested (b : bool) (s : InterruptionSystem) :=
  mkInterruptionSystem (station_id s) (running s) (monitor_thread s) b
    (config s) (statistics s) (_last_interruption s).
Definition set_config (c : gmap string float) (s : InterruptionSystem) :=
  mkInterruptionSystem (station_id s) (running s) (monitor_thread s) (_shutdown_requested s)
    c (statistics s) (_last_interruption s).
Definition set_statistics (st : gmap string Z) (s : InterruptionSystem) :=
  mkInterruptionSystem (station_id s) (running s) (monitor_thread s) (_shutdown_requested s)
    (config s) st (_last_interruption s).
Definition set_last_interruption (i : option Interruption) (s : InterruptionSystem) :=
  mkInterruptionSystem (station_id s) (running s) (monitor_thread s) (_shutdown_requested s)
    (config s) (statistics s) i.

Definition Sys := M InterruptionSystem.

(** [InterruptionSystem.__init__]. *)
Definition default_config : gmap string float :=
  <["high_tide_threshold" := 2.5%float]>
  (<["extreme_tide_threshold" := 4.0%float]>
  (<["extreme_temp_min" := (-5.0)%float]>
  (<["extreme_temp_max" := 35.0%float]>
  (<["extreme_wind_max" := 120.0%float]>
  (<["min_reading_interval" := 0.5%float]>
  (<["max_reading_interval" := 3.0%float]> ∅)))))).

Definition initial_statistics : gmap string Z :=
  <["total_interruptions" := 0%Z]>
  (<["high_tide" := 0%Z]>
  (<["sensor_failure" := 0%Z]>
  (<["extreme_conditions" := 0%Z]> ∅))).

Definition new_InterruptionSystem (station_id : string) : InterruptionSystem :=
  {| station_id := station_id;
     running := false;
     monitor_thread := None;
     _shutdown_requested := false;
     config := default_config;
     statistics := initial_statistics;
     _last_interruption := None |}.

(** [update_configuration]: [kwargs] are the keyword arguments in call order. *)
Fixpoint update_configuration (kwargs : list (string * float)) : Sys unit :=
  match kwargs with
  | [] => ret tt
  | (key, value) :: rest =>
      let* self := get in
      match config self !! key with
      | Some _ =>
          modify (fun s => set_config (<[key := value]> (config s)) s) ;;;
          emit (PrintLine (ConfigurationUpdated key value))
      | None =>
          emit (PrintLine (InvalidParameter key))
      end ;;;
      update_configuration rest
  end.

(** [self.statistics[key] += 1]. *)
Definition increment (key : string) : Sys unit :=
  let* self := get in
  let* n := getitem (statistics self) key in
  modify (fun s => set_statistics (<[key := (n + 1)%Z]> (statistics s)) s).

(** [_generate_interruption]; [now] is what [datetime.now()] returns.  The
    call on the monitor and the signal leave the station object: they are
    emitted as effects and taken to return normally (the class behind
    [self.monitor] is imported from mareographic_system.interruption_system, and the
    handler a signal reaches is process-wide state). *)
Definition _generate_interruption (now : datetime) (type : InterruptionType)
    (message : string) (data : SensorData) : Sys unit :=
  let* self := get in
  let interruption := mkInterruption type now (station_id self) message data in
  emit (MonitorHandle interruption) ;;;
  modify (set_last_interruption (Some interruption)) ;;;
  emit (RaiseSignal (InterruptionType_value type)) ;;;
  increment "total_interruptions" ;;;
  match type with
  | SENSOR_FAILURE => increment "sensor_failure"
  | EXTREME_CONDITIONS => increment "extreme_conditions"
  end.

(** [x >= y] and [x <= y] on Python floats. *)
Definition float_ge (x y : float) : bool := (y <=? x)%float.
Definition float_le (x y : float) : bool := (x <=? y)%float.

(** [self.config[key]]. *)
Definition config_item (key : string) : Sys float :=
  let* self := get in getitem (config self) key.

Section Evaluation.

(** How Python formats a float inside an f-string. *)
Variable float_str : float -> string.

Definition sensor_failure_message (data : SensorData) : string :=
  "⚠ SENSOR FAILURE: " +:+ SensorState_value (state data).

Definition extreme_tide_label (data : SensorData) : string :=
  "Extreme tide: " +:+ float_str (water_level data) +:+ "m".
Definition high_tide_label (data : SensorData) : string :=
  "High tide: " +:+ float_str (water_level data) +:+ "m".
Definition extreme_low_temp_label (data : SensorData) : string :=
  "Extreme low temp: " +:+ float_str (temperature data) +:+ "°C".
Definition extreme_high_temp_label (data : SensorData) : string :=
  "Extreme high temp: " +:+ float_str (temperature data) +:+ "°C".
Definition extreme_wind_label (data : SensorData) : string :=
  "Extreme wind: " +:+ float_str (wind_speed data) +:+ "km/h".

Definition extreme_conditions_message (extreme_conditions : list string) : string :=
  "🚨 " +:+ String.concat " | " extreme_conditions.

(** The tide, temperature and wind tests of [_evaluate_conditions], each
    appending to the list built so far. *)
Definition check_tide (data : SensorData) (extreme_conditions : list string)
    : Sys (list string) :=
  let* extreme_tide := config_item "extreme_tide_threshold" in
  if float_ge (water_level data) extreme_tide then
    ret (extreme_conditions ++ [extreme_tide_label data])
  else
    let* high_tide := config_item "high_tide_threshold" in
    if float_ge (water_level data) high_tide then
      ret (extreme_conditions ++ [high_tide_label data])
    else ret extreme_conditions.

Definition check_temperature (data : SensorData) (extreme_conditions : list string)
    : Sys (list string) :=
  let* temp_min := config_item "extreme_temp_min" in
  if float_le (temperature data) temp_min then
    ret (extreme_conditions ++ [extreme_low_temp_label data])
  else
    let* temp_max := config_item "extreme_temp_max" in
    if float_ge (temperature data) temp_max then
      ret (extreme_conditions ++ [extreme_high_temp_label data])
    else ret extreme_conditions.

Definition check_wind (data : SensorData) (extreme_conditions : list string)
    : Sys (list string) :=
  let* wind_max := config_item "extreme_wind_max" in
  if float_ge (wind_speed data) wind_max then
    ret (extreme_conditions ++ [extreme_wind_label data])
  else ret extreme_conditions.

(** [_evaluate_conditions]. *)
Definition _evaluate_conditions (now : datetime) (data : SensorData) : Sys unit :=
  if negb (SensorState_eqb (state data) FUNCTIONING) then
    _generate_interruption now SENSOR_FAILURE (sensor_failure_message data) data
  else
    let* extreme_conditions := check_tide data [] in
    let* extreme_conditions := check_temperature data extreme_conditions in
    let* extreme_conditions := check_wind data extreme_conditions in
    match extreme_conditions with
    | [] => ret tt
    | _ :: _ =>
        _generate_interruption now EXTREME_CONDITIONS
          (extreme_conditions_message extreme_conditions) data
    end.

End Evaluation.

(** [_show_final_statistics]. *)
Definition _show_final_statistics : Sys unit :=
  emit (PrintLine (Rule 50)) ;;;
  emit (PrintLine FinalStatisticsTitle) ;;;
  emit (PrintLine (Rule 50)) ;;;
  let* self := get in
  let* total := getitem (statistics self) "total_interruptions" in
  emit (PrintLine (TotalInterruptions total)) ;;;
  let* self := get in
  let* failures := getitem (statistics self) "sensor_failure" in
  emit (PrintLine (SensorFailures failures)) ;;;
  let* self := get in
  let* extreme := getitem (statistics self) "extreme_conditions" in
  emit (PrintLine (ExtremeConditionsCount extreme)) ;;;
  emit (PrintLine (Rule 50)).

(** [start_system]; [thread] is the [threading.Thread] object the call
    creates. *)
Definition start_system (thread : Thread) : Sys unit :=
  let* self := get in
  emit (PrintLine (StartingSystem (station_id self))) ;;;
  emit (PrintLine (Rule 60)) ;;;
  modify (set_running true) ;;;
  modify (set_shutdown_requested false) ;;;
  emit (SetSignalHandler SIGINT handle_shutdown) ;;;
  emit (SetSignalHandler SIGTERM handle_shutdown) ;;;
  modify (set_monitor_thread (Some thread)) ;;;
  emit (ThreadStart thread true).

(** [stop_system]; [alive] is what [self.monitor_thread.is_alive()] answers
    if it is asked. *)
Definition stop_system (alive : bool) : Sys unit :=
  let* self := get in
  if negb (running self) then ret tt
  else
    emit (PrintLine StoppingSystem) ;;;
    modify (set_running false) ;;;
    modify (set_shutdown_requested true) ;;;
    let* self := get in
    match monitor_thread self with
    | Some thread => if alive then emit (ThreadJoin thread 2) else ret tt
    | None => ret tt
    end ;;;
    emit (SetSignalHandler SIGINT SIG_DFL) ;;;
    emit (SetSignalHandler SIGTERM SIG_DFL) ;;;
    emit (PrintLine SystemStopped) ;;;
    _show_final_statistics.

(** [_handle_shutdown]: the handler [start_system] installs for SIGINT and
    SIGTERM. *)
Definition _handle_shutdown : Sys unit :=
  modify (set_shutdown_requested true) ;;;
  modify (set_running false).

(** ** 4. The station manager *)

Record StationManager := mkStationManager {
  stations : gmap string InterruptionSystem
}.

Definition Mgr := M StationManager.

(** [StationManager.__init__]. *)
Definition new_StationManager : StationManager := {| stations := ∅ |}.

(** A method call on another object: the caller's own fields are
    untouched, the callee afterwards is handed back. *)
Definition call_on {St Obj A} (m : M Obj A) (obj : Obj) : M St Obj :=
  fun st =>
    match m obj with
    | (Ret _, obj', o) => (Ret obj', st, o)
    | (Raise e, _, o) => (Raise e, st, o)
    end.

(** [add_station]; [custom_config] is [None] or a dictionary, listed in
    insertion order. *)
Definition add_station (station_id : string)
    (custom_config : option (list (string * float))) : Mgr InterruptionSystem :=
  let system := new_InterruptionSystem station_id in
  let* system :=
    match custom_config with
    | Some ((_ :: _) as kwargs) => call_on (update_configuration kwargs) system
    | Some [] | None => ret system
    end in
  modify (fun m => {| stations := <[station_id := system]> (stations m) |}) ;;;
  emit (PrintLine (StationAdded station_id)) ;;;
  ret system.

(** ** 5. The wait between two samples, on a clock

    Lines 266-276 of [_monitor_sensors] and the join of [stop_system], with
    time counted in milliseconds from the moment the wait begins; a sleep
    lasts what it asks for and everything else is instantaneous. *)
Module Timing.

(** The polls that follow the sleep: [polls] rounds are left, the clock
    shows [t], and [_shutdown_requested] is true from [stop_at] on.  The
    result is the time at which the [for] loop is left. *)
Fixpoint poll (polls : nat) (t stop_at : Z) : Z :=
  match polls with
  | O => t
  | S polls' =>
      if (stop_at <=? t)%Z then t            (* if self._shutdown_requested: break *)
      else poll polls' (t + 100)%Z stop_at   (* time.sleep(0.1) *)
  end.

(** [time.sleep(interval)], then [int(interval * 10)] polls. *)
Definition wait_end (interval stop_at : Z) : Z :=
  poll (Z.to_nat (interval / 100)) (0 + interval)%Z stop_at.

(** [self.monitor_thread.join(timeout=2)], called at [stop_at] on a thread
    that ends at [thread_end]: the time at which the join returns. *)
Definition join_returns (thread_end stop_at : Z) : Z :=
  Z.min thread_end (stop_at + 2000)%Z.

(** How long [stop_system] blocks when it is called [stop_at] milliseconds
    into a wait of [interval] milliseconds. *)
Definition stop_latency (interval stop_at : Z) : Z :=
  (join_returns (wait_end interval stop_at) stop_at - stop_at)%Z.

(** Whether the sampling thread is still inside its wait when
    [stop_system] has returned. *)
Definition still_waiting (interval stop_at : Z) : bool :=
  (join_returns (wait_end interval stop_at) stop_at <? wait_end interval stop_at)%Z.

End Timing.

(** ** 6. Sequences of calls on one station *)

Section Calls.

Variable float_str : float -> string.

Inductive Call :=
| CallEvaluate (now : datetime) (data : SensorData)
| CallUpdate (kwargs : list (string * float))
| CallStart (thread : Thread)
| CallStop (alive : bool)
| CallHandleShutdown.

Definition call (c : Call) : Sys unit :=
  match c with
  | CallEvaluate now data => _evaluate_conditions float_str now data
  | CallUpdate kwargs => update_configuration kwargs
  | CallStart thread => start_system thread
  | CallStop alive => stop_system alive
  | CallHandleShutdown => _handle_shutdown
  end.

(** The station after a sequence of calls; a call that raises leaves the
    station as it was at the raise. *)
Definition run_calls (calls : list Call) (s : InterruptionSystem) : InterruptionSystem :=
  fold_left (fun s c => after (call c s)) calls s.

End Calls.

(** The interruptions handed to the monitor, oldest first. *)
Fixpoint generated (out : list Effect) : list Interruption :=
  match out with
  | [] => []
  | MonitorHandle i :: out' => i :: generated out'
  | _ :: out' => generated out'
  end.

(** [stats[key]] for reading counters in statements. *)
Definition counter (s : InterruptionSystem) (key : string) : option Z :=
  statistics s !! key.

(** ** 7. Definitions used in the statements *)

(** The per-kind counter [_generate_interruption] increments. *)
Definition kind_key (type : InterruptionType) : string :=
  match type with
  | SENSOR_FAILURE => "sensor_failure"
  | EXTREME_CONDITIONS => "extreme_conditions"
  end.

(** The five thresholds [_evaluate_conditions] may read. *)
Record Thresholds := mkThresholds {
  high_tide_threshold : float;
  extreme_tide_threshold : float;
  extreme_temp_min : float;
  extreme_temp_max : float;
  extreme_wind_max : float
}.

Definition has_thresholds (cfg : gmap string float) (th : Thresholds) : Prop :=
  cfg !! "high_tide_threshold" = Some (high_tide_threshold th) /\
  cfg !! "extreme_tide_threshold" = Some (extreme_tide_threshold th) /\
  cfg !! "extreme_temp_min" = Some (extreme_temp_min th) /\
  cfg !! "extreme_temp_max" = Some (extreme_temp_max th) /\
  cfg !! "extreme_wind_max" = Some (extreme_wind_max th).


(** Every numeric field of the reading lies strictly below each threshold
    it is compared with. *)
Definition below_every_threshold (th : Thresholds) (data : SensorData) : bool :=
  (water_level data <? high_tide_threshold th)%float &&
  (water_level data <? extreme_tide_threshold th)%float &&
  (temperature data <? extreme_temp_min th)%float &&
  (temperature data <? extreme_temp_max th)%float &&
  (wind_speed data <? extreme_wind_max th)%float.

(** The reading is strictly on the quiet side of each threshold: above the
    minimum temperature, below everything else. *)
Definition quiet (th : Thresholds) (data : SensorData) : bool :=
  (water_level data <? high_tide_threshold th)%float &&
  (water_level data <? extreme_tide_threshold th)%float &&
  (extreme_temp_min th <? temperature data)%float &&
  (temperature data <? extreme_temp_max th)%float &&
  (wind_speed data <? extreme_wind_max th)%float.

Section SpecifiedLabels.

Variable float_str : float -> string.

(** Step 2 of the evaluator as the specification words it: the tide label
    (extreme, else high), the temperature label (low, else high) and the
    wind label, collected in that order. *)
Definition tide_labels (th : Thresholds) (data : SensorData) : list string :=
  if float_ge (water_level data) (extreme_tide_threshold th)
  then [extreme_tide_label float_str data]
  else if float_ge (water_level data) (high_tide_threshold th)
  then [high_tide_label float_str data]
  else [].

Definition temperature_labels (th : Thresholds) (data : SensorData) : list string :=
  if float_le (temperature data) (extreme_temp_min th)
  then [extreme_low_temp_label float_str data]
  else if float_ge (temperature data) (extreme_temp_max th)
  then [extreme_high_temp_label float_str data]
  else [].

Definition wind_labels (th : Thresholds) (data : SensorData) : list string :=
  if float_ge (wind_speed data) (extreme_wind_max th)
  then [extreme_wind_label float_str data]
  else [].

Definition firing_labels (th : Thresholds) (data : SensorData) : list string :=
  tide_labels th data ++ temperature_labels th data ++ wind_labels th data.

End SpecifiedLabels.

(** A formatter that prints no digits, for examples in which the digits do
    not matter. *)
Definition no_digits (x : float) : string := "".

Definition default_thresholds : Thresholds :=
  mkThresholds 2.5%float 4.0%float (-5.0)%float 35.0%float 120.0%float.

(** The dictionary [update_configuration] leaves behind. *)
Fixpoint updated (kwargs : list (string * float)) (cfg : gmap string float)
    : gmap string float :=
  match kwargs with
  | [] => cfg
  | (key, value) :: rest =>
      updated rest (match cfg !! key with
                    | Some _ => <[key := value]> cfg
                    | None => cfg
                    end)
  end.

(** The line [update_configuration] prints for one keyword argument. *)
Definition report_line (cfg : gmap string float) (kv : string * float) : Effect :=
  match cfg !! kv.1 with
  | Some _ => PrintLine (ConfigurationUpdated kv.1 kv.2)
  | None => PrintLine (InvalidParameter kv.1)
  end.

(** How often the final-statistics block is printed in a run of effects. *)
Fixpoint final_statistics_emissions (out : list Effect) : nat :=
  match out with
  | [] => 0
  | PrintLine FinalStatisticsTitle :: out' => S (final_statistics_emissions out')
  | _ :: out' => final_statistics_emissions out'
  end.

(** The keyword arguments [add_station] passes on: none when
    [custom_config] is [None] or empty. *)
Definition overrides (custom_config : option (list (string * float)))
    : list (string * float) :=
  match custom_config with
  | Some kwargs => kwargs
  | None => []
  end.

(** What an interruption says apart from clock and station. *)
Definition classification (i : Interruption) : InterruptionType * string * SensorData :=
  (itype i, message i, sensor_data i).

(** The total is the sum of the two per-kind counters, which are not
    negative, and the high-tide counter is zero. *)
Definition statistics_consistent (s : InterruptionSystem) : Prop :=
  exists failures extreme : Z,
    counter s "total_interruptions" = Some (failures + extreme)%Z /\
    counter s "sensor_failure" = Some failures /\
    counter s "extreme_conditions" = Some extreme /\
    counter s "high_tide" = Some 0%Z /\
    (0 <= failures)%Z /\ (0 <= extreme)%Z.

(** From [s] to [s'] either no counter moved, or the total and the
    counter of one kind went up by one and the others stayed. *)
Definition statistics_step (s s' : InterruptionSystem) : Prop :=
  statistics s' = statistics s \/
  exists type total n,
    counter s "total_interruptions" = Some total /\
    counter s (kind_key type) = Some n /\
    counter s' "total_interruptions" = Some (total + 1)%Z /\
    counter s' (kind_key type) = Some (n + 1)%Z /\
    forall key, key <> "total_interruptions" -> key <> kind_key type ->
      counter s' key = counter s key.

(** ** 7a. The context manager of a station *)

(** [try: body finally: cleanup]: the cleanup runs whatever the body did;
    an exception of the cleanup replaces the outcome of the body. *)
Definition try_finally {St A} (body : M St A) (cleanup : M St unit) : M St A :=
  fun s =>
    let '(r, s1, o1) := body s in
    match cleanup s1 with
    | (Ret _, s2, o2) => (r, s2, o1 ++ o2)
    | (Raise e, s2, o2) => (Raise e, s2, o1 ++ o2)
    end.

(** [with system.execute() as s: block]: the generator starts the system
    inside its [try], yields the station to the block and stops the system
    in its [finally]. *)
Definition execute {A} (thread : Thread) (alive : bool) (block : Sys A) : Sys A :=
  try_finally (start_system thread ;;; block) (stop_system alive).

(** The configuration has exactly the keys [__init__] gave it. *)
Definition keys_intact (s : InterruptionSystem) : Prop :=
  forall key, is_Some (config s !! key) <-> is_Some (default_config !! key).

(** The value the last keyword argument named [key] carries, if any. *)
Fixpoint last_binding (kwargs : list (string * float)) (key : string) : option float :=
  match kwargs with
  | [] => None
  | (k, v) :: rest =>
      match last_binding rest key with
      | Some v' => Some v'
      | None => if decide (k = key) then Some v else None
      end
  end.

(** The handler in force for a signal after a run of effects: the last
    one installed with [signal.signal], if any. *)
Fixpoint installed (out : list Effect) (sig : Signal) (before : option Handler)
    : option Handler :=
  match out with
  | [] => before
  | SetSignalHandler sig' h :: out' =>
      installed out' sig
        (match sig, sig' with
         | SIGINT, SIGINT | SIGBREAK, SIGBREAK | SIGTERM, SIGTERM => Some h
         | _, _ => before
         end)
  | _ :: out' => installed out' sig before
  end.

(** ** 7b. Handlers and their dispatch *)

(** A callable registered as a handler, told apart by an identifier. *)
Definition Callback := nat.

(** The station together with its [handlers] dictionary (keyed by
    interruption type). *)
Record HandledSystem := mkHandledSystem {
  station : InterruptionSystem;
  handlers : InterruptionType -> option Callback
}.

Definition InterruptionType_eqb (a b : InterruptionType) : bool :=
  match a, b with
  | SENSOR_FAILURE, SENSOR_FAILURE | EXTREME_CONDITIONS, EXTREME_CONDITIONS => true
  | _, _ => false
  end.

(** [InterruptionType(signum)]: the member whose value is the signal;
    [None] stands for the [ValueError] raised when there is none. *)
Definition InterruptionType_of (signum : Signal) : option InterruptionType :=
  match signum with
  | SIGINT => Some SENSOR_FAILURE
  | SIGBREAK => Some EXTREME_CONDITIONS
  | SIGTERM => None
  end.

(** [register_handler]: the dictionary entry is written, then
    [_signal_handler] is installed for the signal of the type. *)
Definition register_handler (type : InterruptionType) (handler : Callback)
    (hs : HandledSystem) : HandledSystem * list Effect :=
  ({| station := station hs;
      handlers := fun t => if InterruptionType_eqb t type then Some handler
                           else handlers hs t |},
   [SetSignalHandler (InterruptionType_value type) signal_handler]).

(** [_signal_handler]: the calls it makes, each a handler with its
    argument; [None] when [InterruptionType(signum)] raises.  The station
    is not written. *)
Definition _signal_handler (signum : Signal) (hs : HandledSystem)
    : option (list (Callback * Interruption)) :=
  match InterruptionType_of signum with
  | None => None
  | Some type =>
      Some match handlers hs type with
           | Some handler =>
               match _last_interruption (station hs) with
               | Some interruption => [(handler, interruption)]
               | None => []
               end
           | None => []
           end
  end.

(** A method of the station run on a station with handlers. *)
Definition on_station {A} (m : Sys A) (hs : HandledSystem)
    : Res A * HandledSystem * list Effect :=
  let '(r, s, o) := m (station hs) in
  (r, {| station := s; handlers := handlers hs |}, o).

(** ** 7c. All stations at once *)

(** Lines the manager prints. *)
Inductive ManagerLine :=
| StartingAllStations
| StationsStarted (n : nat)
| StoppingAllStations
| AllStationsStopped
| SummaryRule
| SummaryTitle
| SummaryStation (station_id : string)
| SummaryState (running : bool)
| SummaryTotal (n : Z)
| SummaryFailures (n : Z)
| SummaryExtreme (n : Z)
| SystemTotal (n : Z).

(** What the manager does to the outside: an effect of one of its
    stations, a line of its own, or the half second it sleeps after each
    start. *)
Inductive ManagerEvent :=
| OfStation (station_id : string) (e : Effect)
| ManagerPrint (l : ManagerLine)
| ManagerSleep.

(** [for station_id, system in self.stations.items(): body]; [order] is
    the order in which the dictionary yields its keys.  The body is a method
    of the station followed by [pause]; an exception leaves the loop. *)
Fixpoint for_each_station (method : string -> Sys unit) (pause : list ManagerEvent)
    (order : list string) (m : StationManager)
    : Res unit * StationManager * list ManagerEvent :=
  match order with
  | [] => (Ret tt, m, [])
  | station_id :: rest =>
      match stations m !! station_id with
      | None => for_each_station method pause rest m
      | Some system =>
          let '(r, system', out) := method station_id system in
          let m1 := {| stations := <[station_id := system']> (stations m) |} in
          match r with
          | Raise e => (Raise e, m1, map (OfStation station_id) out)
          | Ret _ =>
              let '(r2, m2, out2) := for_each_station method pause rest m1 in
              (r2, m2, map (OfStation station_id) out ++ pause ++ out2)
          end
      end
  end.

(** [start_all_stations]; [thread_of] gives the thread object each start
    creates. *)
Definition start_all_stations (order : list string) (thread_of : string -> Thread)
    (m : StationManager) : Res unit * StationManager * list ManagerEvent :=
  let '(r, m1, out) :=
    for_each_station (fun station_id => start_system (thread_of station_id))
      [ManagerSleep] order m in
  match r with
  | Raise e => (Raise e, m1, ManagerPrint StartingAllStations :: out)
  | Ret _ =>
      (Ret tt, m1,
       ManagerPrint StartingAllStations :: out
       ++ [ManagerPrint (StationsStarted (size (stations m1)))])
  end.

(** [stop_all_stations]; [alive_of] answers [is_alive()] for each station. *)
Definition stop_all_stations (order : list string) (alive_of : string -> bool)
    (m : StationManager) : Res unit * StationManager * list ManagerEvent :=
  let '(r, m1, out) :=
    for_each_station (fun station_id => stop_system (alive_of station_id))
      [] order m in
  match r with
  | Raise e => (Raise e, m1, ManagerPrint StoppingAllStations :: out)
  | Ret _ =>
      (Ret tt, m1,
       ManagerPrint StoppingAllStations :: out ++ [ManagerPrint AllStationsStopped])
  end.

(** [with manager.run_all_stations(): block]: all stations are started
    inside the [try], the block runs, and all stations are stopped in the
    [finally]. *)
Definition run_all_stations {A} (order : list string) (thread_of : string -> Thread)
    (alive_of : string -> bool)
    (block : StationManager -> Res A * StationManager * list ManagerEvent)
    (m : StationManager) : Res A * StationManager * list ManagerEvent :=
  let '(r1, m1, o1) := start_all_stations order thread_of m in
  let '(rb, mb, ob) :=
    match r1 with
    | Raise e => (Raise e, m1, [])
    | Ret _ => block m1
    end in
  match stop_all_stations order alive_of mb with
  | (Ret _, m2, o2) => (rb, m2, o1 ++ ob ++ o2)
  | (Raise e, m2, o2) => (Raise e, m2, o1 ++ ob ++ o2)
  end.

(** [get_system_state]: the running flag and copies of the two
    dictionaries. *)
Record SystemState := mkSystemState {
  state_running : bool;
  state_statistics : gmap string Z;
  state_configuration : gmap string float
}.

Definition get_system_state (s : InterruptionSystem) : SystemState :=
  {| state_running := running s;
     state_statistics := statistics s;
     state_configuration := config s |}.

(** The body of the loop of [show_general_summary] for one station: the
    lines printed and the station's total, or the key whose lookup
    raised with the lines printed before. *)
Definition summary_of_station (station_id : string) (s : InterruptionSystem)
    : list ManagerLine * (Z + string) :=
  let state := get_system_state s in
  let stats := state_statistics state in
  let head := [SummaryStation station_id; SummaryState (state_running state)] in
  match stats !! "total_interruptions" with
  | None => (head, inr "total_interruptions")
  | Some total =>
      match stats !! "sensor_failure" with
      | None => (head ++ [SummaryTotal total], inr "sensor_failure")
      | Some failures =>
          match stats !! "extreme_conditions" with
          | None =>
              (head ++ [SummaryTotal total; SummaryFailures failures],
               inr "extreme_conditions")
          | Some extreme =>
              (head ++ [SummaryTotal total; SummaryFailures failures;
                        SummaryExtreme extreme],
               inl total)
          end
      end
  end.

Fixpoint summary_loop (order : list string) (m : StationManager)
    (total_interruptions : Z) : Res Z * list ManagerLine :=
  match order with
  | [] => (Ret total_interruptions, [])
  | station_id :: rest =>
      match stations m !! station_id with
      | None => summary_loop rest m total_interruptions
      | Some system =>
          match summary_of_station station_id system with
          | (lines, inr key) => (Raise (KeyError key), lines)
          | (lines, inl total) =>
              let '(r, lines') :=
                summary_loop rest m (total_interruptions + total)%Z in
              (r, lines ++ lines')
          end
      end
  end.

(** [show_general_summary]: the manager is only read. *)
Definition show_general_summary (order : list string) (m : StationManager)
    : Res unit * list ManagerLine :=
  let head := [SummaryRule; SummaryTitle; SummaryRule] in
  match summary_loop order m 0%Z with
  | (Raise e, lines) => (Raise e, head ++ lines)
  | (Ret total, lines) => (Ret tt, head ++ lines ++ [SystemTotal total; SummaryRule])
  end.

(** [order] lists the keys of the dictionary, each once. *)
Definition lists_stations (order : list string) (m : StationManager) : Prop :=
  NoDup order /\ forall station_id, station_id ∈ order <-> is_Some (stations m !! station_id).

(** The sum of a counter over the stations listed. *)
Fixpoint sum_counter (key : string) (order : list string) (m : StationManager) : Z :=
  match order with
  | [] => 0%Z
  | station_id :: rest =>
      (match stations m !! station_id with
       | Some s => default 0%Z (counter s key)
       | None => 0%Z
       end + sum_counter key rest m)%Z
  end.

(** A manager with two fresh stations, for examples. *)
Definition two_stations : StationManager :=
  after (add_station "B" None (after (add_station "A" None new_StationManager))).

(** ** 7d. The console monitor (interruption_monitor.py) *)
Module Monitor.

(** The monitor's [statistics] dictionary.  Its four keys are written
    out at every access and none is ever added or removed, so it is a
    record; [last_update] is [None] or a clock reading. *)
Record Statistics := mkStatistics {
  total_interruptions : Z;
  sensor_failure : Z;
  extreme_conditions : Z;
  last_update : option datetime
}.

(** A value of the monitor's [config] dictionary. *)
Inductive Value := IntValue (n : Z) | FloatValue (x : float).

(** What the menu panel may hold: the panels the three generators build,
    each with the values it displays. *)
Inductive Content :=
| ConfigurationPanel (rows : list (string * Value))
| StatisticsPanel (stats : Statistics)
| SummaryPanel (now : datetime) (stats : Statistics) (rows : list (string * Value)).

Record InterruptionMonitor := mkInterruptionMonitor {
  running : bool;
  current_input : string;
  statistics : Statistics;
  config : list (string * Value);
  showing_submenu : bool;
  current_menu_content : option Content;
  last_summary_update : option datetime
}.

(** [InterruptionMonitor.__init__] (the attributes modelled); the last
    value is the float Python reads 0.7 as. *)
Definition new_InterruptionMonitor : InterruptionMonitor :=
  {| running := true;
     current_input := "";
     statistics := mkStatistics 0 0 0 None;
     config := [("high_tide_threshold", FloatValue 2.5%float);
                ("extreme_tide_threshold", FloatValue 4.0%float);
                ("min_simulation_interval", IntValue 1);
                ("max_simulation_interval", IntValue 5);
                ("sensor_failure_probability", FloatValue 0x1.6666666666666p-1%float)];
     showing_submenu := false;
     current_menu_content := None;
     last_summary_update := None |}.

(** What a method of the monitor does outside the attributes above. *)
Inductive Event :=
| UpdateHistory (type : InterruptionType) (now : datetime)   (* self._update_history(..) *)
| InvalidOption.                                             (* the console line *)

Definition set_statistics (st : Statistics) (m : InterruptionMonitor) :=
  mkInterruptionMonitor (running m) (current_input m) st (config m)
    (showing_submenu m) (current_menu_content m) (last_summary_update m).
Definition set_current_input (i : string) (m : InterruptionMonitor) :=
  mkInterruptionMonitor (running m) i (statistics m) (config m)
    (showing_submenu m) (current_menu_content m) (last_summary_update m).
Definition set_showing_submenu (b : bool) (m : InterruptionMonitor) :=
  mkInterruptionMonitor (running m) (current_input m) (statistics m) (config m)
    b (current_menu_content m) (last_summary_update m).
Definition set_current_menu_content (c : option Content) (m : InterruptionMonitor) :=
  mkInterruptionMonitor (running m) (current_input m) (statistics m) (config m)
    (showing_submenu m) c (last_summary_update m).
Definition set_running (b : bool) (m : InterruptionMonitor) :=
  mkInterruptionMonitor b (current_input m) (statistics m) (config m)
    (showing_submenu m) (current_menu_content m) (last_summary_update m).
Definition set_last_summary_update (t : option datetime) (m : InterruptionMonitor) :=
  mkInterruptionMonitor (running m) (current_input m) (statistics m) (config m)
    (showing_submenu m) (current_menu_content m) t.

(** [_handle_signal]: [None] when [InterruptionType(signum)] raises;
    [now1] and [now2] are the two readings of the clock. *)
Definition _handle_signal (signum : Signal) (now1 now2 : datetime)
    (m : InterruptionMonitor) : option (InterruptionMonitor * list Event) :=
  match InterruptionType_of signum with
  | None => None
  | Some type =>
      let st := statistics m in
      let st := mkStatistics (total_interruptions st + 1) (sensor_failure st)
                  (extreme_conditions st) (last_update st) in
      let st :=
        match type with
        | SENSOR_FAILURE =>
            mkStatistics (total_interruptions st) (sensor_failure st + 1)
              (extreme_conditions st) (last_update st)
        | EXTREME_CONDITIONS =>
            mkStatistics (total_interruptions st) (sensor_failure st)
              (extreme_conditions st + 1) (last_update st)
        end in
      let st := mkStatistics (total_interruptions st) (sensor_failure st)
                  (extreme_conditions st) (Some now1) in
      Some (set_statistics st m, [UpdateHistory type now2])
  end.

(** The monitor after a sequence of signals, each with its two clock
    readings; a signal on which [_handle_signal] raises changes nothing. *)
Definition handle_signals (signals : list (Signal * datetime * datetime))
    (m : InterruptionMonitor) : InterruptionMonitor :=
  fold_left (fun m '(signum, now1, now2) =>
               match _handle_signal signum now1 now2 m with
               | Some (m', _) => m'
               | None => m
               end) signals m.

Definition _generate_configuration_content (m : InterruptionMonitor) : Content :=
  ConfigurationPanel (config m).
Definition _generate_statistics_content (m : InterruptionMonitor) : Content :=
  StatisticsPanel (statistics m).
Definition _generate_summary_content (now : datetime) (m : InterruptionMonitor) : Content :=
  SummaryPanel now (statistics m) (config m).

(** Carriage return, line feed and backspace, as one-character strings. *)
Definition CR : string := String (Ascii.ascii_of_nat 13) "".
Definition LF : string := String (Ascii.ascii_of_nat 10) "".
Definition BS : string := String (Ascii.ascii_of_nat 8) "".

(** [s[:-1]]. *)
Fixpoint drop_last (s : string) : string :=
  match s with
  | "" => ""
  | String c "" => ""
  | String c rest => String c (drop_last rest)
  end.

(** [str.isdigit] on text decoded from single bytes (ASCII digits). *)
Definition is_digit (c : Ascii.ascii) : bool :=
  Ascii.leb (Ascii.ascii_of_nat 48) c && Ascii.leb c (Ascii.ascii_of_nat 57).
Fixpoint all_digits (s : string) : bool :=
  match s with
  | "" => true
  | String c rest => is_digit c && all_digits rest
  end.
Definition isdigit (s : string) : bool :=
  match s with
  | "" => false
  | _ => all_digits s
  end.

(** [msvcrt.getch().decode('utf-8', errors='ignore')]: a byte below 128
    is one character, any other lone byte is dropped. *)
Definition decode (byte : Ascii.ascii) : string :=
  if (Ascii.nat_of_ascii byte <? 128)%nat then String byte "" else "".

Section Menu.

(** [_modify_thresholds], the submenu that reads the keyboard until a
    parameter is chosen and edited, is left open: any function of the
    monitor. *)
Variable _modify_thresholds : InterruptionMonitor -> InterruptionMonitor.

(** [_process_command]; [now1] and [now2] are the clock readings taken
    for option 4. *)
Definition _process_command (command : string) (now1 now2 : datetime)
    (m : InterruptionMonitor) : InterruptionMonitor * list Event :=
  let input := current_input m in
  let m := set_current_input "" m in
  if String.eqb input "0" || String.eqb input BS then
    (set_showing_submenu false (set_current_menu_content None m), [])
  else if showing_submenu m then (m, [])
  else
    let m := set_showing_submenu true m in
    if String.eqb input "1" then
      (set_current_menu_content (Some (_generate_configuration_content m)) m, [])
    else if String.eqb input "2" then
      (set_showing_submenu false (_modify_thresholds m), [])
    else if String.eqb input "3" then
      (set_current_menu_content (Some (_generate_statistics_content m)) m, [])
    else if String.eqb input "4" then
      let m := set_last_summary_update (Some now1) m in
      (set_current_menu_content (Some (_generate_summary_content now2 m)) m, [])
    else if String.eqb input "5" then
      (set_running false m, [])
    else
      (set_showing_submenu false m, [InvalidOption]).

(** [_check_input]; [key] is [None] when [msvcrt.kbhit()] is false and
    the byte [msvcrt.getch()] returns otherwise. *)
Definition _check_input (key : option Ascii.ascii) (now1 now2 : datetime)
    (m : InterruptionMonitor) : InterruptionMonitor * list Event :=
  match key with
  | None => (m, [])
  | Some byte =>
      let char := decode byte in
      if String.eqb char CR || String.eqb char LF then
        match current_input m with
        | "" => (m, [])
        | _ => _process_command (current_input m) now1 now2 m
        end
      else if String.eqb char BS then
        match current_input m with
        | "" => if showing_submenu m then _process_command "0" now1 now2 m
                else (m, [])
        | _ => (set_current_input (drop_last (current_input m)) m, [])
        end
      else if isdigit char && String.leb "0" char && String.leb char "5" then
        (set_current_input (current_input m +:+ char) m, [])
      else (m, [])
  end.

(** The monitor after a sequence of polls of the keyboard. *)
Definition check_inputs (keys : list (option Ascii.ascii * datetime * datetime))
    (m : InterruptionMonitor) : InterruptionMonitor :=
  fold_left (fun m '(key, now1, now2) => (_check_input key now1 now2 m).1) keys m.

End Menu.

End Monitor.

(** How many of the signals are [sig]. *)
Fixpoint count_signal (sig : Signal) (signals : list (Signal * datetime * datetime)) : Z :=
  match signals with
  | [] => 0%Z
  | (s, _, _) :: rest =>
      ((match sig, s with
        | SIGINT, SIGINT | SIGBREAK, SIGBREAK | SIGTERM, SIGTERM => 1
        | _, _ => 0
        end) + count_signal sig rest)%Z
  end.

(** The manager after a sequence of [add_station] calls. *)
Definition add_stations (adds : list (string * option (list (string * float))))
    (m : StationManager) : StationManager :=
  fold_left (fun m '(station_id, custom_config) =>
               after (add_station station_id custom_config m)) adds m.

(** * Theorems *)

(** ** 8. Comparison of floats *)

Lemma SFcompare_swap (a b : spec_float) :
  SFcompare b a = option_map CompOpp (SFcompare a b).
Proof.
  destruct a as [sa|sa| |sa ma ea], b as [sb|sb| |sb mb eb]; simpl;
    try reflexivity;
    try (destruct sa; reflexivity); try (destruct sb; reflexivity);
    try (destruct sa, sb; reflexivity).
  destruct sa, sb; simpl; try reflexivity;
    rewrite (Z.compare_antisym ea eb); destruct (ea ?= eb)%Z; simpl;
    try reflexivity;
    rewrite (Pos.compare_cont_antisym ma mb Eq); simpl;
    destruct (Pos.compare_cont Eq ma mb); reflexivity.
Qed.

(** [x == y] entails [x >= y]. *)
Lemma float_eqb_ge (x y : float) :
  (x =? y)%float = true -> float_ge x y = true.
Proof.
  unfold float_ge. rewrite FloatAxioms.eqb_spec, leb_spec.
  unfold SFeqb, SFleb. rewrite (SFcompare_swap (Prim2SF x) (Prim2SF y)).
  destruct (SFcompare (Prim2SF x) (Prim2SF y)) as [[]|]; simpl; congruence.
Qed.

(** [x < y] excludes [x >= y]. *)
Lemma float_ltb_not_ge (x y : float) :
  (x <? y)%float = true -> float_ge x y = false.
Proof.
  unfold float_ge. rewrite ltb_spec, leb_spec.
  unfold SFltb, SFleb. rewrite (SFcompare_swap (Prim2SF x) (Prim2SF y)).
  destruct (SFcompare (Prim2SF x) (Prim2SF y)) as [[]|]; simpl; congruence.
Qed.

(** [y < x] excludes [x <= y]. *)
Lemma float_gtb_not_le (x y : float) :
  (y <? x)%float = true -> float_le x y = false.
Proof. apply float_ltb_not_ge. Qed.

(** ** 9. Running method bodies *)

Lemma increment_run (key : string) (s : InterruptionSystem) :
  increment key s =
  match statistics s !! key with
  | Some n => (Ret tt, set_statistics (<[key := (n + 1)%Z]> (statistics s)) s, [])
  | None => (Raise (KeyError key), s, [])
  end.
Proof.
  unfold increment, bind, get, getitem, modify, ret, raise.
  destruct (statistics s !! key); reflexivity.
Qed.

Lemma config_item_run (key : string) (s : InterruptionSystem) :
  config_item key s =
  match config s !! key with
  | Some v => (Ret v, s, [])
  | None => (Raise (KeyError key), s, [])
  end.
Proof.
  unfold config_item, bind, get, getitem, ret, raise.
  destruct (config s !! key); reflexivity.
Qed.

Lemma generate_run now type msg data (s : InterruptionSystem) :
  let i := mkInterruption type now (station_id s) msg data in
  let s1 := set_last_interruption (Some i) s in
  let out := [MonitorHandle i; RaiseSignal (InterruptionType_value type)] in
  _generate_interruption now type msg data s =
  match statistics s !! "total_interruptions" with
  | None => (Raise (KeyError "total_interruptions"), s1, out)
  | Some t =>
      let s2 := set_statistics (<["total_interruptions" := (t + 1)%Z]> (statistics s)) s1 in
      match statistics s2 !! kind_key type with
      | None => (Raise (KeyError (kind_key type)), s2, out)
      | Some n =>
          (Ret tt, set_statistics (<[kind_key type := (n + 1)%Z]> (statistics s2)) s2, out)
      end
  end.
Proof.
  intros i s1 out. unfold _generate_interruption.
  unfold bind at 1. unfold get at 1. cbv beta iota.
  unfold bind at 1. unfold emit at 1. cbv beta iota.
  unfold bind at 1. unfold modify at 1. cbv beta iota.
  unfold bind at 1. unfold emit at 1. cbv beta iota.
  unfold bind at 1. rewrite increment_run.
  fold i. fold s1. change (statistics s1) with (statistics s).
  destruct (statistics s !! "total_interruptions") as [t|]; [|reflexivity].
  cbv zeta.
  set (s2 := set_statistics _ s1).
  destruct type; rewrite increment_run; simpl kind_key;
    destruct (statistics s2 !! _); reflexivity.
Qed.

Lemma generate_effects now type msg data (s : InterruptionSystem) :
  effects (_generate_interruption now type msg data s) =
  [MonitorHandle (mkInterruption type now (station_id s) msg data);
   RaiseSignal (InterruptionType_value type)].
Proof.
  rewrite generate_run. cbv zeta.
  destruct (statistics s !! "total_interruptions"); [|reflexivity].
  match goal with |- context [?m !! kind_key type] => destruct (m !! kind_key type) end;
    reflexivity.
Qed.

(** [_generate_interruption] writes [statistics] and [_last_interruption]
    and nothing else. *)
Lemma generate_frame now type msg data (s : InterruptionSystem) :
  let s' := after (_generate_interruption now type msg data s) in
  station_id s' = station_id s /\ running s' = running s /\
  monitor_thread s' = monitor_thread s /\
  _shutdown_requested s' = _shutdown_requested s /\ config s' = config s /\
  _last_interruption s' = Some (mkInterruption type now (station_id s) msg data).
Proof.
  rewrite generate_run. cbv zeta.
  destruct (statistics s !! "total_interruptions"); [|simpl; tauto].
  match goal with |- context [?m !! kind_key type] => destruct (m !! kind_key type) end;
    simpl; tauto.
Qed.

Section EvaluationFacts.

Variable float_str : float -> string.

Lemma evaluate_not_functioning now data (s : InterruptionSystem) :
  state data <> FUNCTIONING ->
  _evaluate_conditions float_str now data s =
  _generate_interruption now SENSOR_FAILURE (sensor_failure_message data) data s.
Proof.
  intros H. unfold _evaluate_conditions.
  destruct (state data); [contradiction| |]; reflexivity.
Qed.

(** C1. A reading whose sensor state is not FUNCTIONING makes
    [_evaluate_conditions] hand exactly one SENSOR_FAILURE interruption to
    the monitor and raise SIGINT; its message is the failure prefix followed
    by the value of the sensor state.  This holds for every station object,
    whatever its configuration dictionary holds (even none of the threshold
    keys), so no tide, temperature or wind test is evaluated, and the
    message mentions none of their labels. *)
Theorem sensor_failure_preempts now data (s : InterruptionSystem) :
  state data <> FUNCTIONING ->
  let r := _evaluate_conditions float_str now data s in
  let i := mkInterruption SENSOR_FAILURE now (station_id s)
             ("⚠ SENSOR FAILURE: " +:+ SensorState_value (state data)) data in
  effects r = [MonitorHandle i; RaiseSignal SIGINT] /\
  generated (effects r) = [i] /\
  _last_interruption (after r) = Some i /\
  config (after r) = config s.
Proof.
  intros H r i. subst r. rewrite (evaluate_not_functioning _ _ _ H).
  rewrite generate_effects.
  pose proof (generate_frame now SENSOR_FAILURE (sensor_failure_message data) data s) as F.
  cbv zeta in F. destruct F as (_ & _ & _ & _ & Hc & Hl).
  repeat split; try assumption; reflexivity.
Qed.

End EvaluationFacts.

Section Labels.

Variable float_str : float -> string.

Lemma check_tide_run th data acc (s : InterruptionSystem) :
  has_thresholds (config s) th ->
  check_tide float_str data acc s = (Ret (acc ++ tide_labels float_str th data), s, []).
Proof.
  intros (Hh & He & _). unfold check_tide, tide_labels, bind.
  rewrite config_item_run, He.
  destruct (float_ge (water_level data) (extreme_tide_threshold th)); [reflexivity|].
  rewrite config_item_run, Hh.
  destruct (float_ge (water_level data) (high_tide_threshold th));
    unfold ret; rewrite ?app_nil_r; reflexivity.
Qed.

Lemma check_temperature_run th data acc (s : InterruptionSystem) :
  has_thresholds (config s) th ->
  check_temperature float_str data acc s =
  (Ret (acc ++ temperature_labels float_str th data), s, []).
Proof.
  intros (_ & _ & Hmin & Hmax & _). unfold check_temperature, temperature_labels, bind.
  rewrite config_item_run, Hmin.
  destruct (float_le (temperature data) (extreme_temp_min th)); [reflexivity|].
  rewrite config_item_run, Hmax.
  destruct (float_ge (temperature data) (extreme_temp_max th));
    unfold ret; rewrite ?app_nil_r; reflexivity.
Qed.

Lemma check_wind_run th data acc (s : InterruptionSystem) :
  has_thresholds (config s) th ->
  check_wind float_str data acc s = (Ret (acc ++ wind_labels float_str th data), s, []).
Proof.
  intros (_ & _ & _ & _ & Hw). unfold check_wind, wind_labels, bind.
  rewrite config_item_run, Hw.
  destruct (float_ge (wind_speed data) (extreme_wind_max th));
    unfold ret; rewrite ?app_nil_r; reflexivity.
Qed.

(** On a functioning sensor the method computes the specification's label
    list and generates an interruption exactly when it is not empty. *)
Lemma evaluate_functioning th now data (s : InterruptionSystem) :
  state data = FUNCTIONING ->
  has_thresholds (config s) th ->
  _evaluate_conditions float_str now data s =
  match firing_labels float_str th data with
  | [] => (Ret tt, s, [])
  | (_ :: _) as labels =>
      _generate_interruption now EXTREME_CONDITIONS
        (extreme_conditions_message labels) data s
  end.
Proof.
  intros Hf Hth. unfold _evaluate_conditions. rewrite Hf. cbn [SensorState_eqb negb].
  unfold bind at 1. rewrite (check_tide_run th _ _ _ Hth). cbn [app].
  unfold bind at 1. rewrite (check_temperature_run th _ _ _ Hth).
  unfold bind at 1. rewrite (check_wind_run th _ _ _ Hth).
  rewrite <- app_assoc. fold (firing_labels float_str th data).
  destruct (firing_labels float_str th data) as [|l ls]; [reflexivity|].
  destruct (_generate_interruption _ _ _ _ s) as [[r s'] o]. reflexivity.
Qed.

End Labels.

Lemma default_config_thresholds : has_thresholds default_config default_thresholds.
Proof. repeat split; vm_compute; reflexivity. Qed.

Section LabelFacts.

Variable float_str : float -> string.



Lemma firing_labels_nil th data :
  firing_labels float_str th data = [] <->
  float_ge (water_level data) (extreme_tide_threshold th) = false /\
  float_ge (water_level data) (high_tide_threshold th) = false /\
  float_le (temperature data) (extreme_temp_min th) = false /\
  float_ge (temperature data) (extreme_temp_max th) = false /\
  float_ge (wind_speed data) (extreme_wind_max th) = false.
Proof.
  unfold firing_labels, tide_labels, temperature_labels, wind_labels.
  destruct (float_ge _ (extreme_tide_threshold th)),
    (float_ge _ (high_tide_threshold th)),
    (float_le _ _), (float_ge _ (extreme_temp_max th)),
    (float_ge _ (extreme_wind_max th)); simpl; split; intros H;
    try discriminate; try tauto;
    destruct H as (? & ? & ? & ? & ?); discriminate.
Qed.

Lemma quiet_no_labels th data :
  quiet th data = true -> firing_labels float_str th data = [].
Proof.
  unfold quiet. rewrite !andb_true_iff. intros ((((H1 & H2) & H3) & H4) & H5).
  apply firing_labels_nil. repeat split.
  - apply float_ltb_not_ge, H2.
  - apply float_ltb_not_ge, H1.
  - apply float_gtb_not_le, H3.
  - apply float_ltb_not_ge, H4.
  - apply float_ltb_not_ge, H5.
Qed.


End LabelFacts.

Section AlertTheorems.

Variable float_str : float -> string.

(** C7, as amended.  For a reading of a functioning sensor and a station
    whose configuration holds the five thresholds: the label list is empty
    exactly when none of the five comparisons holds, which is the case when
    the water level is below both tide thresholds, the temperature strictly
    between the minimum and the maximum and the wind below its maximum; with
    an empty list the call returns with no effect and no change; otherwise it
    hands exactly one EXTREME_CONDITIONS interruption to the monitor and
    raises SIGBREAK, and the message is the alarm prefix followed by the
    tide, temperature and wind labels, in that order, joined by " | ". *)
Theorem extreme_conditions_alert th now data (s : InterruptionSystem) :
  state data = FUNCTIONING ->
  has_thresholds (config s) th ->
  let r := _evaluate_conditions float_str now data s in
  let labels := tide_labels float_str th data ++ temperature_labels float_str th data
                ++ wind_labels float_str th data in
  let i := mkInterruption EXTREME_CONDITIONS now (station_id s)
             ("🚨 " +:+ String.concat " | " labels) data in
  (labels = [] <->
     float_ge (water_level data) (extreme_tide_threshold th) = false /\
     float_ge (water_level data) (high_tide_threshold th) = false /\
     float_le (temperature data) (extreme_temp_min th) = false /\
     float_ge (temperature data) (extreme_temp_max th) = false /\
     float_ge (wind_speed data) (extreme_wind_max th) = false) /\
  (quiet th data = true -> labels = []) /\
  (labels = [] -> r = (Ret tt, s, [])) /\
  (labels <> [] ->
     effects r = [MonitorHandle i; RaiseSignal SIGBREAK] /\
     generated (effects r) = [i]).
Proof.
  intros Hf Hth r labels i. subst r.
  rewrite (evaluate_functioning float_str th _ _ _ Hf Hth).
  fold (firing_labels float_str th data) in labels.
  split; [apply firing_labels_nil|].
  split; [apply quiet_no_labels|].
  split.
  - intros E. subst labels. rewrite E. reflexivity.
  - intros NE. subst i. subst labels.
    destruct (firing_labels float_str th data) as [|l ls]; [congruence|].
    rewrite generate_effects. split; reflexivity.
Qed.


End AlertTheorems.

(** ** 10. Configuration updates *)

Lemma set_config_same (s : InterruptionSystem) : set_config (config s) s = s.
Proof. destruct s; reflexivity. Qed.

Lemma set_config_twice c1 c2 (s : InterruptionSystem) :
  set_config c2 (set_config c1 s) = set_config c2 s.
Proof. reflexivity. Qed.

Lemma step_keeps_keys (cfg : gmap string float) key value k :
  is_Some (match cfg !! key with
           | Some _ => <[key := value]> cfg
           | None => cfg
           end !! k) <-> is_Some (cfg !! k).
Proof.
  destruct (cfg !! key) eqn:E; [|tauto].
  destruct (decide (key = k)) as [->|Hne].
  - rewrite lookup_insert_eq, E. split; eauto.
  - rewrite lookup_insert_ne by assumption. tauto.
Qed.

Lemma updated_keeps_keys kwargs (cfg : gmap string float) k :
  is_Some (updated kwargs cfg !! k) <-> is_Some (cfg !! k).
Proof.
  revert cfg. induction kwargs as [|[key value] rest IH]; intros cfg; simpl; [tauto|].
  rewrite IH. apply step_keeps_keys.
Qed.

Lemma updated_other kwargs (cfg : gmap string float) k :
  k ∉ kwargs.*1 -> updated kwargs cfg !! k = cfg !! k.
Proof.
  revert cfg. induction kwargs as [|[key value] rest IH]; intros cfg Hk; simpl; [reflexivity|].
  simpl in Hk. apply not_elem_of_cons in Hk as [Hne Hk].
  rewrite IH by assumption.
  destruct (cfg !! key); [|reflexivity].
  apply lookup_insert_ne. congruence.
Qed.

Lemma updated_known kwargs (cfg : gmap string float) k v :
  NoDup (kwargs.*1) -> (k, v) ∈ kwargs -> is_Some (cfg !! k) ->
  updated kwargs cfg !! k = Some v.
Proof.
  revert cfg. induction kwargs as [|[key value] rest IH]; intros cfg Hnd Hin Hk; simpl.
  - apply elem_of_nil in Hin. contradiction.
  - simpl in Hnd. apply NoDup_cons in Hnd as [Hfresh Hnd].
    apply elem_of_cons in Hin as [Heq|Hin].
    + injection Heq as -> ->. rewrite updated_other by assumption.
      destruct Hk as [x Hx]. rewrite Hx. apply lookup_insert_eq.
    + apply IH; [assumption|assumption|]. apply step_keeps_keys, Hk.
Qed.

Lemma report_line_ext (cfg cfg' : gmap string float) kv :
  (forall k, is_Some (cfg' !! k) <-> is_Some (cfg !! k)) ->
  report_line cfg' kv = report_line cfg kv.
Proof.
  intros H. unfold report_line. specialize (H kv.1).
  destruct (cfg' !! kv.1), (cfg !! kv.1); try reflexivity.
  - destruct H as [H _]. destruct H as [? ?]; [eauto|discriminate].
  - destruct H as [_ H]. destruct H as [? ?]; [eauto|discriminate].
Qed.

Lemma update_configuration_run kwargs (s : InterruptionSystem) :
  update_configuration kwargs s =
  (Ret tt, set_config (updated kwargs (config s)) s, map (report_line (config s)) kwargs).
Proof.
  revert s. induction kwargs as [|[key value] rest IH]; intros s.
  - simpl. unfold ret. rewrite set_config_same. reflexivity.
  - cbn [update_configuration]. unfold bind at 1. unfold get at 1. cbv beta iota.
    unfold bind at 1. cbn [map updated]. unfold report_line at 1. cbn [fst snd].
    destruct (config s !! key) as [old|] eqn:E.
    + unfold bind at 1, modify at 1, emit at 1. cbv beta iota.
      rewrite IH. cbn [config set_config app]. f_equal. f_equal.
      apply map_ext. intros kv. apply report_line_ext. intros k.
      pose proof (step_keeps_keys (config s) key value k) as Hs.
      rewrite E in Hs. exact Hs.
    + unfold emit at 1. cbv beta iota. rewrite IH. reflexivity.
Qed.

(** C8.  [update_configuration] decides key by key, by membership in the
    configuration dictionary: it always returns; a known key ends up bound
    to the value supplied; an unknown key stays absent and is reported with
    an "invalid parameter" line; keys not supplied keep their value; the set
    of keys never changes; one line is printed per supplied key, in call
    order; and no other attribute of the station changes. *)
Theorem update_configuration_per_key kwargs (s : InterruptionSystem) :
  NoDup (kwargs.*1) ->
  let r := update_configuration kwargs s in
  outcome r = Ret tt /\
  (forall key value, (key, value) ∈ kwargs -> is_Some (config s !! key) ->
     config (after r) !! key = Some value /\
     PrintLine (ConfigurationUpdated key value) ∈ effects r) /\
  (forall key value, (key, value) ∈ kwargs -> config s !! key = None ->
     config (after r) !! key = None /\
     PrintLine (InvalidParameter key) ∈ effects r) /\
  (forall key, key ∉ kwargs.*1 -> config (after r) !! key = config s !! key) /\
  dom (config (after r)) = dom (config s) /\
  effects r = map (report_line (config s)) kwargs /\
  after r = set_config (config (after r)) s.
Proof.
  intros Hnd r. subst r. rewrite update_configuration_run.
  cbn [outcome after effects fst snd config set_config].
  split; [reflexivity|]. split; [|split; [|split; [|split; [|split]]]].
  - intros key value Hin Hk. split; [apply updated_known; assumption|].
    apply list_elem_of_fmap. exists (key, value). split; [|assumption].
    unfold report_line. cbn [fst snd]. destruct Hk as [x ->]. reflexivity.
  - intros key value Hin Hk. split.
    + apply eq_None_not_Some. rewrite updated_keeps_keys, Hk.
      intros [? ?]; discriminate.
    + apply list_elem_of_fmap. exists (key, value). split; [|assumption].
      unfold report_line. cbn [fst snd]. rewrite Hk. reflexivity.
  - intros key Hk. apply updated_other, Hk.
  - apply set_eq. intros k. rewrite !elem_of_dom. apply updated_keeps_keys.
  - reflexivity.
  - reflexivity.
Qed.

(** ** 11. Start and stop *)

Lemma show_final_statistics_after (s : InterruptionSystem) :
  after (_show_final_statistics s) = s /\
  final_statistics_emissions (effects (_show_final_statistics s)) = 1%nat.
Proof.
  unfold _show_final_statistics, bind, emit, get, getitem, ret, raise.
  destruct (statistics s !! "total_interruptions");
    destruct (statistics s !! "sensor_failure");
    destruct (statistics s !! "extreme_conditions"); split; reflexivity.
Qed.

Lemma stop_system_stopped alive (s : InterruptionSystem) :
  running s = false -> stop_system alive s = (Ret tt, s, []).
Proof.
  intros H. unfold stop_system, bind, get. cbv beta iota. rewrite H. reflexivity.
Qed.

Lemma stop_system_running_run alive (s : InterruptionSystem) :
  running s = true ->
  let s1 := set_shutdown_requested true (set_running false s) in
  stop_system alive s =
  (outcome (_show_final_statistics s1), s1,
   PrintLine StoppingSystem ::
   match monitor_thread s with
   | Some thread => if alive then [ThreadJoin thread 2] else []
   | None => []
   end ++
   [SetSignalHandler SIGINT SIG_DFL; SetSignalHandler SIGTERM SIG_DFL;
    PrintLine SystemStopped] ++ effects (_show_final_statistics s1)).
Proof.
  intros H s1. unfold stop_system.
  unfold bind at 1. unfold get at 1. cbv beta iota. rewrite H. cbn [negb].
  destruct (show_final_statistics_after s1) as [Ha _].
  destruct (_show_final_statistics s1) as [[r s2] o] eqn:E.
  cbn [after outcome effects fst snd] in *. subst s2.
  unfold bind, emit, modify, get, ret. cbv beta iota. fold s1.
  change (monitor_thread s1) with (monitor_thread s).
  destruct (monitor_thread s) as [t|]; [destruct alive|];
    cbv beta iota; rewrite E; reflexivity.
Qed.

Lemma stop_system_running alive (s : InterruptionSystem) :
  running s = true ->
  after (stop_system alive s) = set_shutdown_requested true (set_running false s) /\
  final_statistics_emissions (effects (stop_system alive s)) = 1%nat.
Proof.
  intros H. rewrite (stop_system_running_run alive s H). cbv zeta.
  split; [reflexivity|]. cbn [effects snd].
  destruct (show_final_statistics_after
              (set_shutdown_requested true (set_running false s))) as [_ He].
  destruct (monitor_thread s) as [t|]; [destruct alive|];
    cbn [app final_statistics_emissions]; exact He.
Qed.

(** C5.  [stop_system] on a station that is not running returns at once:
    no exception, no effect, the station unchanged.  After any call of
    [stop_system] the station is not running, so a second call in a row is
    such a no-op, and over the two calls the final-statistics block is
    printed at most once. *)
Theorem stop_system_idempotent alive alive' (s : InterruptionSystem) :
  (running s = false -> stop_system alive s = (Ret tt, s, [])) /\
  (let s1 := after (stop_system alive s) in
   running s1 = false /\
   stop_system alive' s1 = (Ret tt, s1, []) /\
   (final_statistics_emissions
      (effects (stop_system alive s) ++ effects (stop_system alive' s1)) <= 1)%nat).
Proof.
  split; [apply stop_system_stopped|].
  cbv zeta.
  assert (Hr : running (after (stop_system alive s)) = false).
  { destruct (running s) eqn:E.
    - destruct (stop_system_running alive s E) as [-> _]. reflexivity.
    - rewrite (stop_system_stopped alive s E). exact E. }
  split; [exact Hr|].
  rewrite (stop_system_stopped alive' _ Hr).
  split; [reflexivity|].
  cbn [effects snd]. rewrite app_nil_r.
  destruct (running s) eqn:E.
  - destruct (stop_system_running alive s E) as [_ ->]. lia.
  - rewrite (stop_system_stopped alive s E). cbn. lia.
Qed.

Lemma start_system_run thread (s : InterruptionSystem) :
  start_system thread s =
  (Ret tt,
   set_monitor_thread (Some thread) (set_shutdown_requested false (set_running true s)),
   [PrintLine (StartingSystem (station_id s)); PrintLine (Rule 60);
    SetSignalHandler SIGINT handle_shutdown; SetSignalHandler SIGTERM handle_shutdown;
    ThreadStart thread true]).
Proof. reflexivity. Qed.

(** C4, as amended.  [start_system] has no guard: on every station object,
    running or not, stop requested or not, it returns without raising, sets
    [running], clears [_shutdown_requested], installs the shutdown handler
    for SIGINT and SIGTERM, stores the new thread as [monitor_thread] and
    starts it; the configuration, the statistics and the last interruption
    are untouched. *)
Theorem start_system_unguarded thread (s : InterruptionSystem) :
  let r := start_system thread s in
  outcome r = Ret tt /\
  running (after r) = true /\
  _shutdown_requested (after r) = false /\
  monitor_thread (after r) = Some thread /\
  config (after r) = config s /\
  statistics (after r) = statistics s /\
  _last_interruption (after r) = _last_interruption s /\
  station_id (after r) = station_id s /\
  effects r =
    [PrintLine (StartingSystem (station_id s)); PrintLine (Rule 60);
     SetSignalHandler SIGINT handle_shutdown; SetSignalHandler SIGTERM handle_shutdown;
     ThreadStart thread true].
Proof. cbv zeta. rewrite start_system_run. repeat split. Qed.

(** C4 fails as stated: a station started with thread 1 is running; a
    second [start_system] (thread 2) returns normally instead of raising,
    replaces the thread handle and starts a second sampling thread. *)
Lemma start_while_running_succeeds :
  let s1 := after (start_system 1 (new_InterruptionSystem "A")) in
  let r := start_system 2 s1 in
  running s1 = true /\
  outcome r = Ret tt /\
  monitor_thread s1 = Some 1%nat /\
  monitor_thread (after r) = Some 2%nat /\
  after r <> s1 /\
  In (ThreadStart 2 true) (effects r).
Proof.
  cbv zeta. rewrite !start_system_run. cbn [after outcome effects fst snd].
  repeat split.
  - intros H. apply (f_equal monitor_thread) in H. discriminate.
  - simpl. tauto.
Qed.

(** ** 12. Adding stations *)

Lemma add_station_run station_id custom_config (m : StationManager) :
  let system := set_config (updated (overrides custom_config) default_config)
                  (new_InterruptionSystem station_id) in
  add_station station_id custom_config m =
  (Ret system, {| stations := <[station_id := system]> (stations m) |},
   map (report_line default_config) (overrides custom_config)
   ++ [PrintLine (StationAdded station_id)]).
Proof.
  cbv zeta. unfold add_station.
  destruct custom_config as [[|kv kwargs]|]; cbn [overrides updated map app];
    try reflexivity.
  unfold bind at 1. unfold call_on. rewrite update_configuration_run.
  cbn [config new_InterruptionSystem]. reflexivity.
Qed.

(** C3, as amended.  [add_station] has no duplicate check: for every
    manager and every identifier, present or not, it returns a freshly
    constructed station (not running, zeroed statistics, the default
    configuration with the known override keys applied), binds the
    identifier to that station, replacing whatever was bound before, and
    leaves every other identifier as it was. *)
Theorem add_station_replaces station_id custom_config (m : StationManager) :
  let r := add_station station_id custom_config m in
  exists system,
    outcome r = Ret system /\
    stations (after r) !! station_id = Some system /\
    (forall other, other <> station_id ->
       stations (after r) !! other = stations m !! other) /\
    system = set_config (updated (overrides custom_config) default_config)
               (new_InterruptionSystem station_id) /\
    In (PrintLine (StationAdded station_id)) (effects r).
Proof.
  cbv zeta. rewrite add_station_run. cbv zeta.
  eexists. cbn [outcome after effects fst snd stations].
  split; [reflexivity|]. split; [apply lookup_insert_eq|].
  split; [intros other Hne; apply lookup_insert_ne; congruence|].
  split; [reflexivity|].
  apply in_or_app. right. simpl. tauto.
Qed.

(** C3 fails as stated: with "A" already added (its high-tide threshold
    overridden to 3.0), adding "A" again returns a station instead of
    raising, and the manager then holds the new station under "A", with the
    default threshold, not the one added before. *)
Lemma add_station_twice_replaces :
  let m1 := after (add_station "A" (Some [("high_tide_threshold", 3.0%float)])
                     new_StationManager) in
  let r := add_station "A" None m1 in
  is_Some (stations m1 !! "A") /\
  outcome r = Ret (new_InterruptionSystem "A") /\
  stations (after r) !! "A" = Some (new_InterruptionSystem "A") /\
  stations (after r) !! "A" <> stations m1 !! "A" /\
  after r <> m1.
Proof.
  cbv zeta. rewrite !add_station_run. cbv zeta.
  cbn [after outcome effects fst snd stations overrides updated].
  assert (Hne : Some (set_config default_config (new_InterruptionSystem "A")) <>
                Some (set_config
                        (updated [("high_tide_threshold", 3.0%float)] default_config)
                        (new_InterruptionSystem "A"))).
  { intros H.
    apply (f_equal (fun o => match o with
                             | Some system =>
                                 match config system !! "high_tide_threshold" with
                                 | Some v => (v <=? 2.5)%float
                                 | None => false
                                 end
                             | None => false
                             end)) in H.
    vm_compute in H. discriminate. }
  rewrite !lookup_insert_eq.
  split; [eauto|]. split; [reflexivity|]. split; [reflexivity|].
  split; [exact Hne|].
  intros H. apply (f_equal (fun m => stations m !! "A")) in H.
  cbn [stations] in H. rewrite !lookup_insert_eq in H. exact (Hne H).
Qed.

(** ** 13. What an evaluation depends on and what it changes *)

Section Determinism.

Variable float_str : float -> string.

Lemma check_tide_reads data acc (s : InterruptionSystem) :
  exists r, forall s', config s' = config s ->
    check_tide float_str data acc s' = (r, s', []).
Proof.
  unfold check_tide, bind.
  destruct (config s !! "extreme_tide_threshold") as [et|] eqn:E1.
  - destruct (float_ge (water_level data) et) eqn:C1.
    + eexists. intros s' Hc. rewrite config_item_run, Hc, E1, C1. reflexivity.
    + destruct (config s !! "high_tide_threshold") as [ht|] eqn:E2.
      * destruct (float_ge (water_level data) ht) eqn:C2;
          eexists; intros s' Hc;
          rewrite config_item_run, Hc, E1, C1, config_item_run, Hc, E2, C2; reflexivity.
      * eexists. intros s' Hc.
        rewrite config_item_run, Hc, E1, C1, config_item_run, Hc, E2. reflexivity.
  - eexists. intros s' Hc. rewrite config_item_run, Hc, E1. reflexivity.
Qed.

Lemma check_temperature_reads data acc (s : InterruptionSystem) :
  exists r, forall s', config s' = config s ->
    check_temperature float_str data acc s' = (r, s', []).
Proof.
  unfold check_temperature, bind.
  destruct (config s !! "extreme_temp_min") as [lo|] eqn:E1.
  - destruct (float_le (temperature data) lo) eqn:C1.
    + eexists. intros s' Hc. rewrite config_item_run, Hc, E1, C1. reflexivity.
    + destruct (config s !! "extreme_temp_max") as [hi|] eqn:E2.
      * destruct (float_ge (temperature data) hi) eqn:C2;
          eexists; intros s' Hc;
          rewrite config_item_run, Hc, E1, C1, config_item_run, Hc, E2, C2; reflexivity.
      * eexists. intros s' Hc.
        rewrite config_item_run, Hc, E1, C1, config_item_run, Hc, E2. reflexivity.
  - eexists. intros s' Hc. rewrite config_item_run, Hc, E1. reflexivity.
Qed.

Lemma check_wind_reads data acc (s : InterruptionSystem) :
  exists r, forall s', config s' = config s ->
    check_wind float_str data acc s' = (r, s', []).
Proof.
  unfold check_wind, bind.
  destruct (config s !! "extreme_wind_max") as [w|] eqn:E1.
  - destruct (float_ge (wind_speed data) w) eqn:C1;
      eexists; intros s' Hc; rewrite config_item_run, Hc, E1, C1; reflexivity.
  - eexists. intros s' Hc. rewrite config_item_run, Hc, E1. reflexivity.
Qed.

(** The outcome of the tests is a function of the reading and of the
    configuration dictionary alone: a raise, nothing, or the kind and
    message of the interruption to generate. *)
Lemma evaluate_classification data (s : InterruptionSystem) :
  exists c : Res (option (InterruptionType * string)),
    forall now s', config s' = config s ->
      _evaluate_conditions float_str now data s' =
      match c with
      | Raise e => (Raise e, s', [])
      | Ret None => (Ret tt, s', [])
      | Ret (Some (type, msg)) => _generate_interruption now type msg data s'
      end.
Proof.
  unfold _evaluate_conditions.
  destruct (negb (SensorState_eqb (state data) FUNCTIONING)).
  { exists (Ret (Some (SENSOR_FAILURE, sensor_failure_message data))). reflexivity. }
  destruct (check_tide_reads data [] s) as [r1 H1].
  destruct r1 as [l1|e1].
  2:{ exists (Raise e1). intros now s' Hc. unfold bind at 1. rewrite (H1 s' Hc). reflexivity. }
  destruct (check_temperature_reads data l1 s) as [r2 H2].
  destruct r2 as [l2|e2].
  2:{ exists (Raise e2). intros now s' Hc. unfold bind at 1. rewrite (H1 s' Hc).
      unfold bind at 1. rewrite (H2 s' Hc). reflexivity. }
  destruct (check_wind_reads data l2 s) as [r3 H3].
  destruct r3 as [l3|e3].
  2:{ exists (Raise e3). intros now s' Hc. unfold bind at 1. rewrite (H1 s' Hc).
      unfold bind at 1. rewrite (H2 s' Hc). unfold bind at 1. rewrite (H3 s' Hc).
      reflexivity. }
  destruct l3 as [|l ls].
  - exists (Ret None). intros now s' Hc. unfold bind at 1. rewrite (H1 s' Hc).
    unfold bind at 1. rewrite (H2 s' Hc). unfold bind at 1. rewrite (H3 s' Hc).
    reflexivity.
  - exists (Ret (Some (EXTREME_CONDITIONS, extreme_conditions_message (l :: ls)))).
    intros now s' Hc. unfold bind at 1. rewrite (H1 s' Hc).
    unfold bind at 1. rewrite (H2 s' Hc). unfold bind at 1. rewrite (H3 s' Hc).
    destruct (_generate_interruption _ _ _ _ s') as [[r s''] o]. reflexivity.
Qed.

(** What an evaluation generates, emits and leaves alone, on any station:
    the kind, message and sensor data of the interruption depend on the
    reading and the configuration only; identifier, configuration, flags
    and thread handle are kept; nothing changes without an interruption;
    with one, the monitor is called, the signal raised and the interruption
    recorded as the last one. *)
Lemma evaluation_summary now1 now2 data (s1 s2 : InterruptionSystem) :
  config s1 = config s2 ->
  let r1 := _evaluate_conditions float_str now1 data s1 in
  let r2 := _evaluate_conditions float_str now2 data s2 in
  map classification (generated (effects r1)) =
  map classification (generated (effects r2)) /\
  (length (generated (effects r1)) <= 1)%nat /\
  station_id (after r1) = station_id s1 /\
  config (after r1) = config s1 /\
  running (after r1) = running s1 /\
  _shutdown_requested (after r1) = _shutdown_requested s1 /\
  monitor_thread (after r1) = monitor_thread s1 /\
  (generated (effects r1) = [] -> after r1 = s1 /\ effects r1 = []) /\
  (forall i, generated (effects r1) = [i] ->
     effects r1 = [MonitorHandle i; RaiseSignal (InterruptionType_value (itype i))] /\
     _last_interruption (after r1) = Some i).
Proof.
  intros Hc r1 r2. subst r1 r2.
  destruct (evaluate_classification data s1) as [c H].
  rewrite (H now1 s1 eq_refl), (H now2 s2 (eq_sym Hc)).
  destruct c as [[[type msg]|]|e]; cbn [effects after generated fst snd map length].
  2,3: repeat split; try reflexivity; try lia; intros; discriminate.
  rewrite !generate_effects.
  pose proof (generate_frame now1 type msg data s1) as F. cbv zeta in F.
  destruct F as (F1 & F2 & F3 & F4 & F5 & F6).
  cbn [generated map length classification itype message sensor_data].
  repeat split; try assumption; try lia; try discriminate.
  - injection H0 as <-. reflexivity.
  - injection H0 as <-. exact F6.
Qed.

End Determinism.


(** ** 14. The statistics counters *)

Lemma kind_key_not_total type : kind_key type <> "total_interruptions".
Proof. destruct type; discriminate. Qed.

Lemma generate_counts now type msg data (s : InterruptionSystem) total n :
  counter s "total_interruptions" = Some total ->
  counter s (kind_key type) = Some n ->
  let r := _generate_interruption now type msg data s in
  outcome r = Ret tt /\
  counter (after r) "total_interruptions" = Some (total + 1)%Z /\
  counter (after r) (kind_key type) = Some (n + 1)%Z /\
  forall key, key <> "total_interruptions" -> key <> kind_key type ->
    counter (after r) key = counter s key.
Proof.
  unfold counter. intros Ht Hn. cbv zeta. rewrite generate_run. cbv zeta.
  rewrite Ht. cbn [statistics set_statistics set_last_interruption].
  pose proof (kind_key_not_total type) as Hk.
  rewrite lookup_insert_ne by congruence. rewrite Hn.
  cbn [outcome after fst snd statistics set_statistics].
  split; [reflexivity|]. split.
  { rewrite lookup_insert_ne by assumption. apply lookup_insert_eq. }
  split; [apply lookup_insert_eq|].
  intros key H1 H2. rewrite !lookup_insert_ne by congruence. reflexivity.
Qed.

Lemma step_keeps_consistent (s s' : InterruptionSystem) :
  statistics_consistent s -> statistics_step s s' -> statistics_consistent s'.
Proof.
  intros (f & e & Ht & Hf & He & Hh & Hf0 & He0) [Hsame|(type & total & n & H1 & H2 & H3 & H4 & H5)].
  - exists f, e. unfold counter in *. rewrite Hsame. tauto.
  - rewrite Ht in H1. injection H1 as <-.
    destruct type; cbn [kind_key] in *.
    + rewrite Hf in H2. injection H2 as <-.
      exists (f + 1)%Z, e. rewrite H3, H4.
      rewrite (H5 "extreme_conditions"), (H5 "high_tide") by discriminate.
      repeat split; try assumption; try lia. f_equal. lia.
    + rewrite He in H2. injection H2 as <-.
      exists f, (e + 1)%Z. rewrite H3, H4.
      rewrite (H5 "sensor_failure"), (H5 "high_tide") by discriminate.
      repeat split; try assumption; try lia. f_equal. lia.
Qed.

Lemma step_monotone (s s' : InterruptionSystem) key n :
  statistics_step s s' -> counter s key = Some n ->
  exists n', counter s' key = Some n' /\ (n <= n')%Z.
Proof.
  intros [Hsame|(type & total & m & H1 & H2 & H3 & H4 & H5)] Hk.
  - exists n. unfold counter in *. rewrite Hsame. split; [assumption|lia].
  - destruct (decide (key = "total_interruptions")) as [->|N1].
    { rewrite H1 in Hk. injection Hk as <-. exists (total + 1)%Z. split; [assumption|lia]. }
    destruct (decide (key = kind_key type)) as [->|N2].
    { rewrite H2 in Hk. injection Hk as <-. exists (m + 1)%Z. split; [assumption|lia]. }
    exists n. rewrite (H5 key N1 N2). split; [assumption|lia].
Qed.

Section Counters.

Variable float_str : float -> string.

Lemma call_step c (s : InterruptionSystem) :
  statistics_consistent s -> statistics_step s (after (call float_str c s)).
Proof.
  intros Hs. destruct c as [now data|kwargs|thread|alive|]; cbn [call].
  - destruct (evaluate_classification float_str data s) as [cl H].
    rewrite (H now s eq_refl).
    destruct cl as [[[type msg]|]|e]; [|left; reflexivity|left; reflexivity].
    right. destruct Hs as (f & e & Ht & Hf & He & _).
    assert (exists n, counter s (kind_key type) = Some n) as [n Hn]
      by (destruct type; eauto).
    destruct (generate_counts now type msg data s _ n Ht Hn) as (_ & G1 & G2 & G3).
    exists type, (f + e)%Z, n. repeat split; assumption.
  - left. rewrite update_configuration_run. reflexivity.
  - left. rewrite start_system_run. reflexivity.
  - left. destruct (running s) eqn:E.
    + destruct (stop_system_running alive s E) as [-> _]. reflexivity.
    + rewrite (stop_system_stopped alive s E). reflexivity.
  - left. reflexivity.
Qed.

Lemma run_calls_consistent calls (s : InterruptionSystem) :
  statistics_consistent s -> statistics_consistent (run_calls float_str calls s).
Proof.
  revert s. induction calls as [|c calls IH]; intros s Hs; [exact Hs|].
  cbn [run_calls fold_left]. apply IH.
  apply (step_keeps_consistent s); [assumption|apply call_step, Hs].
Qed.

Lemma new_consistent station_id :
  statistics_consistent (new_InterruptionSystem station_id).
Proof. exists 0%Z, 0%Z. repeat split; try reflexivity; lia. Qed.

(** C10.  In every state a station reaches from construction through any
    sequence of evaluations, configuration updates, starts, stops and
    shutdown signals: the total equals the sensor-failure count plus the
    extreme-conditions count and the high-tide counter is 0; generating an
    interruption there returns, adds one to the total and one to the counter
    of its kind and leaves the other counters; and no call lowers a
    counter. *)
Theorem statistics_invariant station_id calls :
  let s := run_calls float_str calls (new_InterruptionSystem station_id) in
  (exists failures extreme : Z,
     counter s "total_interruptions" = Some (failures + extreme)%Z /\
     counter s "sensor_failure" = Some failures /\
     counter s "extreme_conditions" = Some extreme /\
     counter s "high_tide" = Some 0%Z /\
     (0 <= failures)%Z /\ (0 <= extreme)%Z) /\
  (forall now type msg data,
     let r := _generate_interruption now type msg data s in
     exists total n,
       counter s "total_interruptions" = Some total /\
       counter s (kind_key type) = Some n /\
       outcome r = Ret tt /\
       counter (after r) "total_interruptions" = Some (total + 1)%Z /\
       counter (after r) (kind_key type) = Some (n + 1)%Z /\
       forall key, key <> "total_interruptions" -> key <> kind_key type ->
         counter (after r) key = counter s key) /\
  (forall c key n, counter s key = Some n ->
     exists n', counter (after (call float_str c s)) key = Some n' /\ (n <= n')%Z).
Proof.
  cbv zeta.
  pose proof (run_calls_consistent calls _ (new_consistent station_id)) as Hs.
  set (s := run_calls float_str calls (new_InterruptionSystem station_id)) in *.
  split; [exact Hs|]. split.
  - intros now type msg data.
    destruct Hs as (f & e & Ht & Hf & He & _).
    assert (exists n, counter s (kind_key type) = Some n) as [n Hn]
      by (destruct type; eauto).
    exists (f + e)%Z, n.
    destruct (generate_counts now type msg data s _ n Ht Hn) as (G0 & G1 & G2 & G3).
    repeat split; assumption.
  - intros c key n Hk. apply (step_monotone s); [apply call_step, Hs|assumption].
Qed.

End Counters.


(** ** 15. Stopping in the middle of a wait *)

Lemma poll_not_before polls t stop_at : (t <= Timing.poll polls t stop_at)%Z.
Proof.
  revert t. induction polls as [|n IH]; intros t; cbn [Timing.poll]; [lia|].
  destruct (stop_at <=? t)%Z; [lia|]. specialize (IH (t + 100)%Z). lia.
Qed.

(** C2 at its failing input.  With a sampling interval of 3600 s and a stop
    requested 1 s into the wait, the wait ends only when the whole interval
    has been slept (3 600 000 ms), [stop_system] is held for the full 2 s of
    its join timeout, and the sampling thread is still waiting when it
    returns.  No wait, whatever the interval and the moment of the stop
    request, ends before the interval has elapsed. *)
Theorem stop_mid_sleep_not_prompt :
  Timing.wait_end 3600000 1000 = 3600000%Z /\
  Timing.stop_latency 3600000 1000 = 2000%Z /\
  Timing.still_waiting 3600000 1000 = true /\
  forall interval stop_at, (interval <= Timing.wait_end interval stop_at)%Z.
Proof.
  split; [vm_compute; reflexivity|]. split; [vm_compute; reflexivity|].
  split; [vm_compute; reflexivity|].
  intros interval stop_at. unfold Timing.wait_end.
  pose proof (poll_not_before (Z.to_nat (interval / 100)) (0 + interval) stop_at). lia.
Qed.

(** ** 16. Instances *)

(** C7 fails as stated: on a fresh station a functioning reading of 1.0 m,
    -10.0 degrees and 10.0 km/h is below every threshold it is compared
    with (2.5 and 4.0 m, -5.0 and 35.0 degrees, 120.0 km/h), yet an
    EXTREME_CONDITIONS interruption is generated, for the low temperature. *)
Lemma below_every_threshold_alerts :
  let s := new_InterruptionSystem "A" in
  let data := mkSensorData 1.0 (-10.0) 1010.0 10.0 FUNCTIONING 0%Z in
  state data = FUNCTIONING /\
  has_thresholds (config s) default_thresholds /\
  below_every_threshold default_thresholds data = true /\
  generated (effects (_evaluate_conditions no_digits 0%Z data s)) =
  [mkInterruption EXTREME_CONDITIONS 0%Z "A" "🚨 Extreme low temp: °C" data].
Proof.
  cbv zeta. split; [reflexivity|]. split; [exact default_config_thresholds|].
  split; vm_compute; reflexivity.
Qed.

(** A disconnected sensor on a fresh station: one SENSOR_FAILURE
    interruption naming the state. *)
Lemma sensor_failure_preempts_witness :
  let data := mkSensorData 0.0 0.0 0.0 0.0 DISCONNECTED 7%Z in
  state data <> FUNCTIONING /\
  generated (effects (_evaluate_conditions no_digits 7%Z data (new_InterruptionSystem "A"))) =
  [mkInterruption SENSOR_FAILURE 7%Z "A" "⚠ SENSOR FAILURE: disconnected" data].
Proof.
  cbv zeta.
  assert (H : state (mkSensorData 0.0 0.0 0.0 0.0 DISCONNECTED 7%Z) <> FUNCTIONING)
    by (simpl; discriminate).
  split; [exact H|].
  exact (proj1 (proj2 (sensor_failure_preempts no_digits 7%Z _
                         (new_InterruptionSystem "A") H))).
Defined.


(** An extreme tide with an extreme wind: one interruption, the two labels
    in the order tide, wind. *)
Lemma extreme_conditions_alert_witness :
  let data := mkSensorData 5.0 20.0 1010.0 130.0 FUNCTIONING 0%Z in
  generated (effects (_evaluate_conditions no_digits 3%Z data (new_InterruptionSystem "A"))) =
  [mkInterruption EXTREME_CONDITIONS 3%Z "A"
     "🚨 Extreme tide: m | Extreme wind: km/h" data].
Proof.
  cbv zeta.
  assert (Hf : state (mkSensorData 5.0 20.0 1010.0 130.0 FUNCTIONING 0%Z) = FUNCTIONING)
    by reflexivity.
  assert (Hth : has_thresholds (config (new_InterruptionSystem "A")) default_thresholds)
    by (repeat split; vm_compute; reflexivity).
  destruct (extreme_conditions_alert no_digits default_thresholds 3%Z _
              (new_InterruptionSystem "A") Hf Hth) as (_ & _ & _ & H).
  apply H. vm_compute. discriminate.
Defined.

(** One known and one unknown key on a fresh station. *)
Lemma update_configuration_per_key_witness :
  let kwargs := [("extreme_wind_max", 90.0%float); ("wind_max", 80.0%float)] in
  let r := update_configuration kwargs (new_InterruptionSystem "A") in
  NoDup (kwargs.*1) /\
  config (after r) !! "extreme_wind_max" = Some 90.0%float /\
  config (after r) !! "wind_max" = None /\
  PrintLine (InvalidParameter "wind_max") ∈ effects r.
Proof.
  cbv zeta.
  assert (Hnd : NoDup ([("extreme_wind_max", 90.0%float); ("wind_max", 80.0%float)].*1))
    by (apply (bool_decide_unpack _); vm_compute; reflexivity).
  split; [exact Hnd|].
  destruct (update_configuration_per_key _ (new_InterruptionSystem "A") Hnd)
    as (_ & Hknown & Hunknown & _).
  destruct (Hknown "extreme_wind_max" 90.0%float) as [H1 _];
    [apply list_elem_of_here | vm_compute; eauto |].
  destruct (Hunknown "wind_max" 80.0%float) as [H2 H3];
    [apply list_elem_of_further, list_elem_of_here | vm_compute; reflexivity |].
  split; [exact H1|]. split; [exact H2|exact H3].
Defined.

(** A station that was never started. *)
Lemma stop_system_idempotent_witness :
  running (new_InterruptionSystem "A") = false /\
  stop_system true (new_InterruptionSystem "A") = (Ret tt, new_InterruptionSystem "A", []).
Proof.
  split; [reflexivity|].
  apply (proj1 (stop_system_idempotent true true (new_InterruptionSystem "A"))).
  reflexivity.
Defined.


(** Adding "A" to a manager that holds "B" leaves "B" as it was. *)
Lemma add_station_replaces_witness :
  let m := after (add_station "B" None new_StationManager) in
  "B" <> "A" /\
  stations (after (add_station "A" None m)) !! "B" = stations m !! "B".
Proof.
  cbv zeta.
  assert (Hne : "B" <> "A") by discriminate.
  split; [exact Hne|].
  destruct (add_station_replaces "A" None
              (after (add_station "B" None new_StationManager)))
    as (system & _ & _ & Hother & _).
  exact (Hother "B" Hne).
Defined.

(** After a failed reading and an extreme one the total is 2, and a
    further evaluation does not lower it. *)
Lemma statistics_invariant_witness :
  let failed := mkSensorData 0.0 0.0 0.0 0.0 READ_FAILURE 1%Z in
  let extreme := mkSensorData 5.0 20.0 1010.0 10.0 FUNCTIONING 2%Z in
  let s := run_calls no_digits [CallEvaluate 1%Z failed; CallEvaluate 2%Z extreme]
             (new_InterruptionSystem "A") in
  counter s "total_interruptions" = Some 2%Z /\
  exists n, counter (after (call no_digits (CallEvaluate 3%Z failed) s))
              "total_interruptions" = Some n /\ (2 <= n)%Z.
Proof.
  cbv zeta.
  set (calls := [CallEvaluate 1%Z (mkSensorData 0.0 0.0 0.0 0.0 READ_FAILURE 1%Z);
                 CallEvaluate 2%Z (mkSensorData 5.0 20.0 1010.0 10.0 FUNCTIONING 2%Z)]).
  assert (H : counter (run_calls no_digits calls (new_InterruptionSystem "A"))
                "total_interruptions" = Some 2%Z) by (vm_compute; reflexivity).
  split; [exact H|].
  exact (proj2 (proj2 (statistics_invariant no_digits "A" calls)) _ _ _ H).
Defined.

(** * Further properties of the code *)

(** ** 17. No call raises on a station built by the constructor *)





Lemma show_final_statistics_returns (s : InterruptionSystem) :
  statistics_consistent s -> outcome (_show_final_statistics s) = Ret tt.
Proof.
  intros (f & e & Ht & Hf & He & _). unfold counter in *.
  unfold _show_final_statistics, bind, emit, get, getitem, ret.
  rewrite Ht, Hf, He. reflexivity.
Qed.


(** ** 18. Comparisons with NaN and at the thresholds *)

Lemma SFcompare_same (f : spec_float) :
  f = S754_nan \/ SFcompare f f = Some Eq.
Proof.
  destruct f as [s|s| |s m e]; simpl; auto; right.
  - destruct s; reflexivity.
  - rewrite Z.compare_refl, Pos.compare_cont_refl. destruct s; reflexivity.
Qed.

Lemma is_nan_Prim2SF (x : float) : is_nan x = true -> Prim2SF x = S754_nan.
Proof.
  unfold is_nan. rewrite FloatAxioms.eqb_spec. unfold SFeqb.
  destruct (SFcompare_same (Prim2SF x)) as [H|H]; [intros _; exact H|].
  rewrite H. discriminate.
Qed.

(** A comparison with NaN on either side is false. *)
Lemma leb_nan (x y : float) :
  is_nan x = true \/ is_nan y = true -> (x <=? y)%float = false.
Proof.
  rewrite leb_spec. unfold SFleb. intros [H|H]; rewrite (is_nan_Prim2SF _ H).
  - reflexivity.
  - destruct (Prim2SF x); reflexivity.
Qed.

(** [x == y] entails [x <= y]. *)
Lemma float_eqb_le (x y : float) :
  (x =? y)%float = true -> float_le x y = true.
Proof.
  unfold float_le. rewrite FloatAxioms.eqb_spec, leb_spec. unfold SFeqb, SFleb.
  destruct (SFcompare (Prim2SF x) (Prim2SF y)) as [[]|]; congruence.
Qed.

Section Boundaries.

Variable float_str : float -> string.

(** X2.  Comparisons with NaN never hold, so a check is silent when the
    field it reads is NaN or when the thresholds it reads are: on a
    functioning reading, if this is the case for the tide, the temperature
    and the wind check, the evaluation returns without an interruption and
    without any change. *)
Theorem nan_never_alerts th now data (s : InterruptionSystem) :
  state data = FUNCTIONING ->
  has_thresholds (config s) th ->
  is_nan (water_level data) = true \/
    (is_nan (extreme_tide_threshold th) = true /\ is_nan (high_tide_threshold th) = true) ->
  is_nan (temperature data) = true \/
    (is_nan (extreme_temp_min th) = true /\ is_nan (extreme_temp_max th) = true) ->
  is_nan (wind_speed data) = true \/ is_nan (extreme_wind_max th) = true ->
  _evaluate_conditions float_str now data s = (Ret tt, s, []).
Proof.
  intros Hf Hth Htide Htemp Hwind.
  rewrite (evaluate_functioning float_str th now data s Hf Hth).
  assert (E : firing_labels float_str th data = []).
  { apply firing_labels_nil. unfold float_ge, float_le.
    repeat split; apply leb_nan; tauto. }
  rewrite E. reflexivity.
Qed.

(** X3.  Every threshold is inclusive: a water level equal to the
    high-tide threshold (and not at or above the extreme one) gets the
    high-tide label, a temperature equal to the minimum gets the low label,
    a temperature equal to the maximum (and not at or below the minimum)
    gets the high label, and a wind speed equal to the maximum gets the
    wind label.  A temperature at or below the minimum gets the low label
    only, whatever the maximum is. *)
Theorem thresholds_inclusive th data acc (s : InterruptionSystem) :
  has_thresholds (config s) th ->
  ((water_level data =? high_tide_threshold th)%float = true ->
   float_ge (water_level data) (extreme_tide_threshold th) = false ->
   check_tide float_str data acc s =
   (Ret (acc ++ [high_tide_label float_str data]), s, [])) /\
  ((temperature data =? extreme_temp_min th)%float = true ->
   check_temperature float_str data acc s =
   (Ret (acc ++ [extreme_low_temp_label float_str data]), s, [])) /\
  (float_le (temperature data) (extreme_temp_min th) = true ->
   check_temperature float_str data acc s =
   (Ret (acc ++ [extreme_low_temp_label float_str data]), s, [])) /\
  ((temperature data =? extreme_temp_max th)%float = true ->
   float_le (temperature data) (extreme_temp_min th) = false ->
   check_temperature float_str data acc s =
   (Ret (acc ++ [extreme_high_temp_label float_str data]), s, [])) /\
  ((wind_speed data =? extreme_wind_max th)%float = true ->
   check_wind float_str data acc s =
   (Ret (acc ++ [extreme_wind_label float_str data]), s, [])).
Proof.
  intros Hth.
  rewrite (check_tide_run float_str th data acc s Hth),
    (check_temperature_run float_str th data acc s Hth),
    (check_wind_run float_str th data acc s Hth).
  unfold tide_labels, temperature_labels, wind_labels.
  repeat split.
  - intros He Hx. rewrite Hx, (float_eqb_ge _ _ He). reflexivity.
  - intros He. rewrite (float_eqb_le _ _ He). reflexivity.
  - intros Hl. rewrite Hl. reflexivity.
  - intros He Hl. rewrite Hl, (float_eqb_ge _ _ He). reflexivity.
  - intros He. rewrite (float_eqb_ge _ _ He). reflexivity.
Qed.

End Boundaries.

(** A reading whose three checked fields are NaN. *)
Lemma nan_never_alerts_witness :
  let data := mkSensorData nan nan 1010.0 nan FUNCTIONING 0%Z in
  is_nan (water_level data) = true /\
  _evaluate_conditions no_digits 0%Z data (new_InterruptionSystem "A") =
  (Ret tt, new_InterruptionSystem "A", []).
Proof.
  cbv zeta. split; [vm_compute; reflexivity|].
  apply (nan_never_alerts no_digits default_thresholds).
  - reflexivity.
  - repeat split; vm_compute; reflexivity.
  - left. vm_compute. reflexivity.
  - left. vm_compute. reflexivity.
  - left. vm_compute. reflexivity.
Defined.

(** A wind speed equal to the default maximum, 120.0 km/h. *)
Lemma thresholds_inclusive_witness :
  let data := mkSensorData 1.0 20.0 1010.0 120.0 FUNCTIONING 0%Z in
  (wind_speed data =? extreme_wind_max default_thresholds)%float = true /\
  check_wind no_digits data [] (new_InterruptionSystem "A") =
  (Ret ["Extreme wind: km/h"], new_InterruptionSystem "A", []).
Proof.
  cbv zeta.
  assert (He : (wind_speed (mkSensorData 1.0 20.0 1010.0 120.0 FUNCTIONING 0%Z)
                =? extreme_wind_max default_thresholds)%float = true)
    by (vm_compute; reflexivity).
  split; [exact He|].
  assert (Hth : has_thresholds (config (new_InterruptionSystem "A")) default_thresholds)
    by (repeat split; vm_compute; reflexivity).
  destruct (thresholds_inclusive no_digits default_thresholds
              (mkSensorData 1.0 20.0 1010.0 120.0 FUNCTIONING 0%Z) []
              (new_InterruptionSystem "A") Hth) as (_ & _ & _ & _ & H).
  exact (H He).
Defined.

(** ** 19. More on configuration updates *)

Lemma updated_lookup kwargs (cfg : gmap string float) key :
  updated kwargs cfg !! key =
  match cfg !! key with
  | Some old => Some (default old (last_binding kwargs key))
  | None => None
  end.
Proof.
  revert cfg. induction kwargs as [|[k v] rest IH]; intros cfg.
  - simpl. destruct (cfg !! key); reflexivity.
  - cbn [updated last_binding]. rewrite IH.
    destruct (decide (k = key)) as [->|Hne].
    + destruct (cfg !! key) as [old|] eqn:E.
      * rewrite lookup_insert_eq. destruct (last_binding rest key); reflexivity.
      * rewrite E. reflexivity.
    + assert (Hsame : match cfg !! k with
                      | Some _ => <[k := v]> cfg
                      | None => cfg
                      end !! key = cfg !! key).
      { destruct (cfg !! k); [apply lookup_insert_ne; assumption|reflexivity]. }
      rewrite Hsame. destruct (cfg !! key); [|reflexivity].
      destruct (last_binding rest key); reflexivity.
Qed.

Lemma last_binding_elem kwargs key :
  NoDup (kwargs.*1) ->
  forall v, last_binding kwargs key = Some v <-> (key, v) ∈ kwargs.
Proof.
  induction kwargs as [|[k w] rest IH]; intros Hnd v.
  - simpl. split; [discriminate|]. intros H. apply elem_of_nil in H. contradiction.
  - simpl in Hnd. apply NoDup_cons in Hnd as [Hfresh Hnd]. specialize (IH Hnd).
    cbn [last_binding]. rewrite elem_of_cons.
    destruct (last_binding rest key) as [v'|] eqn:E.
    + split.
      * intros H. right. apply IH. exact H.
      * intros [H|H]; [|apply IH; exact H].
        injection H as -> ->. exfalso. apply Hfresh.
        apply list_elem_of_fmap. exists (k, v'). split; [reflexivity|].
        apply IH. reflexivity.
    + destruct (decide (k = key)) as [->|Hne].
      * split; [intros H; left; congruence|].
        intros [H|H]; [congruence|]. apply IH in H. discriminate.
      * split; [discriminate|].
        intros [H|H]; [congruence|]. apply IH in H. discriminate.
Qed.

Lemma last_binding_permutation kwargs kwargs' key :
  NoDup (kwargs.*1) -> kwargs ≡ₚ kwargs' ->
  last_binding kwargs key = last_binding kwargs' key.
Proof.
  intros Hnd Hp.
  assert (Hnd' : NoDup (kwargs'.*1)) by (rewrite <- Hp; exact Hnd).
  destruct (last_binding kwargs key) as [v|] eqn:E.
  - symmetry. apply (last_binding_elem _ _ Hnd'). rewrite <- Hp.
    apply (last_binding_elem _ _ Hnd). exact E.
  - destruct (last_binding kwargs' key) as [v|] eqn:E'; [|reflexivity].
    apply (last_binding_elem _ _ Hnd') in E'. rewrite <- Hp in E'.
    apply (last_binding_elem _ _ Hnd) in E'. congruence.
Qed.

Lemma last_binding_app kw1 kw2 key :
  last_binding (kw1 ++ kw2) key =
  match last_binding kw2 key with
  | Some v => Some v
  | None => last_binding kw1 key
  end.
Proof.
  induction kw1 as [|[k v] rest IH]; cbn [app last_binding].
  - destruct (last_binding kw2 key); reflexivity.
  - rewrite IH. destruct (last_binding kw2 key); reflexivity.
Qed.

(** X4.  One call of [update_configuration] with the arguments of two
    calls, in that order, does what the two calls do one after the other:
    the same station and the same lines. *)
Theorem update_configuration_app kw1 kw2 (s : InterruptionSystem) :
  let r1 := update_configuration kw1 s in
  let r2 := update_configuration kw2 (after r1) in
  update_configuration (kw1 ++ kw2) s = (Ret tt, after r2, effects r1 ++ effects r2).
Proof.
  cbv zeta. rewrite !update_configuration_run.
  cbn [after effects fst snd config set_config].
  rewrite set_config_twice, map_app.
  assert (Hcfg : updated (kw1 ++ kw2) (config s) = updated kw2 (updated kw1 (config s))).
  { apply map_eq. intros key.
    rewrite !updated_lookup, last_binding_app.
    destruct (config s !! key) as [old|]; [|reflexivity]. cbn [default].
    destruct (last_binding kw2 key); reflexivity. }
  assert (Hout : map (report_line (config s)) kw2 =
                 map (report_line (updated kw1 (config s))) kw2).
  { apply map_ext. intros kv. symmetry. apply report_line_ext.
    intros key. apply updated_keeps_keys. }
  rewrite Hcfg, Hout. reflexivity.
Qed.

(** X5.  With distinct keys, as in any Python call, the order of the
    keyword arguments does not matter for the station that results, and
    repeating a call changes nothing more. *)
Theorem update_configuration_order kwargs kwargs' (s : InterruptionSystem) :
  NoDup (kwargs.*1) -> kwargs ≡ₚ kwargs' ->
  after (update_configuration kwargs s) = after (update_configuration kwargs' s) /\
  after (update_configuration kwargs (after (update_configuration kwargs s))) =
  after (update_configuration kwargs s).
Proof.
  intros Hnd Hp. rewrite !update_configuration_run.
  cbn [after fst snd config set_config]. rewrite set_config_twice.
  assert (H1 : updated kwargs (config s) = updated kwargs' (config s)).
  { apply map_eq. intros key. rewrite !updated_lookup.
    rewrite (last_binding_permutation _ _ key Hnd Hp). reflexivity. }
  assert (H2 : updated kwargs (updated kwargs (config s)) = updated kwargs (config s)).
  { apply map_eq. intros key. rewrite !updated_lookup.
    destruct (config s !! key) as [old|]; [|reflexivity].
    destruct (last_binding kwargs key); reflexivity. }
  rewrite H2, <- H1. split; reflexivity.
Qed.

(** Two known keys given in either order. *)
Lemma update_configuration_order_witness :
  let kw := [("extreme_wind_max", 90.0%float); ("high_tide_threshold", 3.0%float)] in
  let kw' := [("high_tide_threshold", 3.0%float); ("extreme_wind_max", 90.0%float)] in
  NoDup (kw.*1) /\ kw ≡ₚ kw' /\
  after (update_configuration kw (new_InterruptionSystem "A")) =
  after (update_configuration kw' (new_InterruptionSystem "A")).
Proof.
  cbv zeta.
  assert (Hnd : NoDup ([("extreme_wind_max", 90.0%float);
                        ("high_tide_threshold", 3.0%float)].*1))
    by (apply (bool_decide_unpack _); vm_compute; reflexivity).
  assert (Hp : [("extreme_wind_max", 90.0%float); ("high_tide_threshold", 3.0%float)]
               ≡ₚ [("high_tide_threshold", 3.0%float); ("extreme_wind_max", 90.0%float)])
    by apply Permutation_swap.
  split; [exact Hnd|]. split; [exact Hp|].
  exact (proj1 (update_configuration_order _ _ (new_InterruptionSystem "A") Hnd Hp)).
Defined.

(** ** 20. Shutdown signal, restart and the context manager *)

Lemma installed_prints out sig before :
  Forall (fun e => exists l, e = PrintLine l) out -> installed out sig before = before.
Proof.
  induction 1 as [|e out [l ->] _ IH]; [reflexivity|]. exact IH.
Qed.

Lemma installed_app out1 out2 sig before :
  installed (out1 ++ out2) sig before = installed out2 sig (installed out1 sig before).
Proof.
  revert before. induction out1 as [|e out1 IH]; intros before; [reflexivity|].
  destruct e; cbn [app installed]; apply IH.
Qed.

Lemma show_final_statistics_prints (s : InterruptionSystem) :
  Forall (fun e => exists l, e = PrintLine l) (effects (_show_final_statistics s)).
Proof.
  unfold _show_final_statistics, bind, emit, get, getitem, ret, raise.
  destruct (statistics s !! "total_interruptions");
    destruct (statistics s !! "sensor_failure");
    destruct (statistics s !! "extreme_conditions");
    cbn [effects snd app]; repeat constructor; eauto.
Qed.

(** X6.  Once the shutdown handler has run (SIGINT or SIGTERM while the
    system is started), the station is marked not running with a shutdown
    requested, and a later [stop_system] does nothing at all: it joins no
    thread, restores no signal handler and prints no final statistics. *)
Theorem shutdown_signal_skips_stop alive (s : InterruptionSystem) :
  let s1 := after (_handle_shutdown s) in
  outcome (_handle_shutdown s) = Ret tt /\
  running s1 = false /\ _shutdown_requested s1 = true /\
  config s1 = config s /\ statistics s1 = statistics s /\
  monitor_thread s1 = monitor_thread s /\
  stop_system alive s1 = (Ret tt, s1, []).
Proof.
  cbv zeta. split; [reflexivity|]. split; [reflexivity|]. split; [reflexivity|].
  split; [reflexivity|]. split; [reflexivity|]. split; [reflexivity|].
  apply stop_system_stopped. reflexivity.
Qed.

(** X7.  [start_system] followed by [stop_system], on any station: the
    station ends not running with a shutdown requested and keeps the handle
    of the thread; configuration, statistics and last interruption are as
    before the start; the thread is joined (timeout 2) exactly when it is
    alive; SIGINT and SIGTERM end at the default handler while the handler
    of SIGBREAK is not touched; the final statistics are printed once. *)
Theorem start_then_stop thread alive before (s : InterruptionSystem) :
  let r1 := start_system thread s in
  let r2 := stop_system alive (after r1) in
  running (after r2) = false /\
  _shutdown_requested (after r2) = true /\
  monitor_thread (after r2) = Some thread /\
  config (after r2) = config s /\
  statistics (after r2) = statistics s /\
  _last_interruption (after r2) = _last_interruption s /\
  (In (ThreadJoin thread 2) (effects r2) <-> alive = true) /\
  installed (effects r1 ++ effects r2) SIGINT before = Some SIG_DFL /\
  installed (effects r1 ++ effects r2) SIGTERM before = Some SIG_DFL /\
  installed (effects r1 ++ effects r2) SIGBREAK before = before /\
  final_statistics_emissions (effects r2) = 1%nat.
Proof.
  cbv zeta. rewrite start_system_run. cbn [after fst snd effects].
  set (s1 := set_monitor_thread (Some thread)
               (set_shutdown_requested false (set_running true s))).
  assert (Hr : running s1 = true) by reflexivity.
  destruct (stop_system_running alive s1 Hr) as [_ Hfin].
  rewrite (stop_system_running_run alive s1 Hr) in *. cbv zeta in *.
  cbn [after fst snd effects] in *.
  pose proof (show_final_statistics_prints
                (set_shutdown_requested true (set_running false s1))) as Hp.
  set (fin := effects (_show_final_statistics
                         (set_shutdown_requested true (set_running false s1)))) in *.
  cbn [monitor_thread s1 set_monitor_thread] in *.
  repeat split; try reflexivity.
  - destruct alive; [reflexivity|]. cbn [app]. intros [H|[H|[H|[H|H]]]];
      try discriminate. exfalso.
    rewrite Forall_forall in Hp. apply list_elem_of_In in H.
    destruct (Hp _ H) as [l Hl]. discriminate.
  - intros ->. right. left. reflexivity.
  - destruct alive; cbn [app installed]; apply installed_prints, Hp.
  - destruct alive; cbn [app installed]; apply installed_prints, Hp.
  - destruct alive; cbn [app installed]; apply installed_prints, Hp.
  - exact Hfin.
Qed.

Lemma execute_run {A} thread alive (block : Sys A) (s : InterruptionSystem) :
  let b := block (after (start_system thread s)) in
  let c := stop_system alive (after b) in
  execute thread alive block s =
  (match outcome c with Ret _ => outcome b | Raise e => Raise e end,
   after c,
   effects (start_system thread s) ++ effects b ++ effects c).
Proof.
  cbv zeta. unfold execute, try_finally, bind.
  rewrite !start_system_run. cbn [after fst snd effects].
  destruct (block _) as [[rb sb] ob]. cbn [after fst snd effects outcome].
  destruct (stop_system alive sb) as [[[[]|e] ss] os];
    cbn [after fst snd effects outcome]; rewrite <- app_assoc; reflexivity.
Qed.

(** X8.  A [with system.execute()] block always leaves the station not
    running, whatever the block does and whether or not it raises; the
    effects begin with those of [start_system]; if the block leaves the
    station running, the exit runs a full stop on the station the block
    left; if the block has already stopped the station (or a shutdown
    signal has), the exit adds nothing and the outcome of the block is
    that of the statement. *)
Theorem execute_always_stops {A} thread alive (block : Sys A) (s : InterruptionSystem) :
  let r := execute thread alive block s in
  let b := block (after (start_system thread s)) in
  running (after r) = false /\
  effects r = effects (start_system thread s) ++ effects b
              ++ effects (stop_system alive (after b)) /\
  after r = after (stop_system alive (after b)) /\
  (running (after b) = true ->
   after r = set_shutdown_requested true (set_running false (after b))) /\
  (running (after b) = false ->
   outcome r = outcome b /\ after r = after b /\
   effects r = effects (start_system thread s) ++ effects b).
Proof.
  cbv zeta. rewrite execute_run. cbv zeta. cbn [after effects outcome fst snd].
  set (b := block (after (start_system thread s))).
  split.
  { destruct (running (after b)) eqn:E.
    - destruct (stop_system_running alive _ E) as [-> _]. reflexivity.
    - rewrite (stop_system_stopped alive _ E). exact E. }
  split; [reflexivity|]. split; [reflexivity|]. split.
  - intros E. apply (stop_system_running alive _ E).
  - intros E. rewrite (stop_system_stopped alive _ E).
    cbn [after effects outcome fst snd]. rewrite app_nil_r. repeat split.
Qed.

(** ** 21. The length of the wait *)

Lemma poll_without_stop polls t stop_at :
  (t + 100 * Z.of_nat polls <= stop_at)%Z ->
  Timing.poll polls t stop_at = (t + 100 * Z.of_nat polls)%Z.
Proof.
  revert t. induction polls as [|n IH]; intros t H; cbn [Timing.poll]; [lia|].
  destruct (Z.leb_spec stop_at t) as [Hle|Hlt]; [lia|].
  rewrite IH by lia. lia.
Qed.

Lemma poll_notices_stop polls t stop_at :
  (t < stop_at + 100)%Z -> (Timing.poll polls t stop_at < stop_at + 100)%Z.
Proof.
  revert t. induction polls as [|n IH]; intros t H; cbn [Timing.poll]; [lia|].
  destruct (Z.leb_spec stop_at t) as [Hle|Hlt]; [lia|]. apply IH. lia.
Qed.

(** X9.  When no stop is requested before it ends, the wait between two
    samples lasts the interval drawn plus one tenth of a second for every
    full tenth of a second of the interval: nearly twice the interval. *)
Theorem wait_without_stop interval stop_at :
  (0 <= interval)%Z ->
  (interval + 100 * (interval / 100) <= stop_at)%Z ->
  Timing.wait_end interval stop_at = (interval + 100 * (interval / 100))%Z /\
  (2 * interval - 100 < Timing.wait_end interval stop_at <= 2 * interval)%Z.
Proof.
  intros H0 Hs. unfold Timing.wait_end.
  assert (Hn : Z.of_nat (Z.to_nat (interval / 100)) = (interval / 100)%Z).
  { apply Z2Nat.id. apply Z.div_pos; lia. }
  rewrite poll_without_stop by (rewrite Hn; lia).
  rewrite Hn. split; [lia|].
  pose proof (Z.mul_div_le interval 100 ltac:(lia)).
  pose proof (Z.mul_succ_div_gt interval 100 ltac:(lia)). lia.
Qed.

(** X10.  A stop requested once the sleep is over, while the flag is
    being polled, is noticed within a tenth of a second, and
    [stop_system] then waits less than that for the thread. *)
Theorem stop_while_polling interval stop_at :
  (interval <= stop_at)%Z ->
  (Timing.wait_end interval stop_at < stop_at + 100)%Z /\
  (Timing.stop_latency interval stop_at < 100)%Z /\
  Timing.still_waiting interval stop_at = false.
Proof.
  intros H. unfold Timing.stop_latency, Timing.still_waiting, Timing.join_returns.
  assert (Hw : (Timing.wait_end interval stop_at < stop_at + 100)%Z)
    by (unfold Timing.wait_end; apply poll_notices_stop; lia).
  split; [exact Hw|]. split; [lia|]. apply Z.ltb_ge. lia.
Qed.

(** X11.  A stop requested during the sleep is not noticed before the
    sleep is over: the wait ends exactly when the interval has elapsed,
    [stop_system] is held for the rest of the interval or for the 2 s of
    its join timeout, whichever is shorter, and the thread is still waiting
    when it returns exactly when more than 2 s of the interval were left. *)
Theorem stop_while_sleeping interval stop_at :
  (stop_at <= interval)%Z ->
  Timing.wait_end interval stop_at = interval /\
  Timing.stop_latency interval stop_at = Z.min (interval - stop_at) 2000 /\
  (Timing.still_waiting interval stop_at = true <-> (stop_at + 2000 < interval)%Z).
Proof.
  intros H.
  assert (Hw : Timing.wait_end interval stop_at = interval).
  { unfold Timing.wait_end. destruct (Z.to_nat (interval / 100)) as [|n];
      cbn [Timing.poll]; [lia|].
    destruct (Z.leb_spec stop_at (0 + interval)) as [Hle|Hlt]; lia. }
  unfold Timing.stop_latency, Timing.still_waiting, Timing.join_returns.
  rewrite Hw. split; [reflexivity|]. split; [lia|].
  rewrite Z.ltb_lt. lia.
Qed.

(** A 3 s interval with no stop before 10 s. *)
Lemma wait_without_stop_witness :
  (0 <= 3000)%Z /\ (3000 + 100 * (3000 / 100) <= 10000)%Z /\
  Timing.wait_end 3000 10000 = 6000%Z.
Proof.
  assert (H0 : (0 <= 3000)%Z) by lia.
  assert (Hs : (3000 + 100 * (3000 / 100) <= 10000)%Z) by (vm_compute; discriminate).
  split; [exact H0|]. split; [exact Hs|].
  exact (proj1 (wait_without_stop 3000 10000 H0 Hs)).
Defined.

(** A stop 3.25 s into the wait of a 3 s interval. *)
Lemma stop_while_polling_witness :
  (3000 <= 3250)%Z /\ (Timing.stop_latency 3000 3250 < 100)%Z.
Proof.
  assert (H : (3000 <= 3250)%Z) by lia.
  split; [exact H|].
  exact (proj1 (proj2 (stop_while_polling 3000 3250 H))).
Defined.

(** A stop 1 s into the wait of a 3 s interval. *)
Lemma stop_while_sleeping_witness :
  (1000 <= 3000)%Z /\ Timing.stop_latency 3000 1000 = 2000%Z.
Proof.
  assert (H : (1000 <= 3000)%Z) by lia.
  split; [exact H|].
  exact (proj1 (proj2 (stop_while_sleeping 3000 1000 H))).
Defined.

(** A block that only updates the configuration leaves the station
    running, so the exit stops it. *)
Lemma execute_always_stops_witness :
  let block := update_configuration [("extreme_wind_max", 90.0%float)] in
  let s := new_InterruptionSystem "A" in
  running (after (block (after (start_system 1 s)))) = true /\
  after (execute 1 true block s) =
  set_shutdown_requested true (set_running false (after (block (after (start_system 1 s))))).
Proof.
  cbv zeta.
  assert (H : running (after (update_configuration [("extreme_wind_max", 90.0%float)]
                                (after (start_system 1 (new_InterruptionSystem "A"))))) = true)
    by (vm_compute; reflexivity).
  split; [exact H|].
  exact (proj1 (proj2 (proj2 (proj2
           (execute_always_stops 1 true
              (update_configuration [("extreme_wind_max", 90.0%float)])
              (new_InterruptionSystem "A"))))) H).
Defined.

(** ** 22. Handlers *)

(** X12.  After [register_handler type handler], a signal of that type
    makes [_signal_handler] call exactly that handler, once, with the
    station's last interruption, and makes no call while no interruption
    has been generated; a later registration for the same type replaces the
    earlier one; the handler of the other type is as it was; a signal whose
    type has no handler makes no call; SIGTERM, the value of no interruption
    type, makes [_signal_handler] raise. *)
Theorem register_then_dispatch type handler (hs : HandledSystem) :
  let hs1 := (register_handler type handler hs).1 in
  station hs1 = station hs /\
  (register_handler type handler hs).2 =
    [SetSignalHandler (InterruptionType_value type) signal_handler] /\
  (forall i, _last_interruption (station hs) = Some i ->
     _signal_handler (InterruptionType_value type) hs1 = Some [(handler, i)]) /\
  (_last_interruption (station hs) = None ->
     _signal_handler (InterruptionType_value type) hs1 = Some []) /\
  (forall other i, _last_interruption (station hs) = Some i ->
     _signal_handler (InterruptionType_value type)
       (register_handler type other hs1).1 = Some [(other, i)]) /\
  (forall type', type' <> type -> handlers hs1 type' = handlers hs type') /\
  (forall type', handlers hs type' = None ->
     _signal_handler (InterruptionType_value type') hs = Some []) /\
  _signal_handler SIGTERM hs1 = None.
Proof.
  cbv zeta. unfold register_handler, _signal_handler. cbn [fst snd station handlers].
  split; [reflexivity|]. split; [reflexivity|].
  split; [intros i Hi; destruct type; cbn; rewrite Hi; reflexivity|].
  split; [intros Hi; destruct type; cbn; rewrite Hi; reflexivity|].
  split; [intros other i Hi; destruct type; cbn; rewrite Hi; reflexivity|].
  split; [intros type' Hne; destruct type, type'; cbn; congruence|].
  split; [intros type' Hn; destruct type'; cbn; rewrite Hn; reflexivity|].
  reflexivity.
Qed.

Section Delivery.

Variable float_str : float -> string.

(** X13.  When an evaluation generates an interruption, the signal it
    raises is the one [_signal_handler] maps back to the type of that
    interruption, and the station's last interruption is that very one: if
    the signal reaches [_signal_handler] before the next evaluation, the
    handler registered for the type is called once with the interruption
    just generated, and no call is made if none is registered. *)
Theorem evaluation_reaches_handler now data (hs : HandledSystem) :
  let r := on_station (_evaluate_conditions float_str now data) hs in
  forall i, generated (effects r) = [i] ->
    In (RaiseSignal (InterruptionType_value (itype i))) (effects r) /\
    InterruptionType_of (InterruptionType_value (itype i)) = Some (itype i) /\
    handlers (after r) = handlers hs /\
    _signal_handler (InterruptionType_value (itype i)) (after r) =
    Some match handlers hs (itype i) with
         | Some handler => [(handler, i)]
         | None => []
         end.
Proof.
  cbv zeta. unfold on_station. intros i.
  pose proof (evaluation_summary float_str now now data (station hs) (station hs)
                eq_refl) as H.
  cbv zeta in H. destruct H as (_ & _ & _ & _ & _ & _ & _ & _ & H).
  destruct (_evaluate_conditions float_str now data (station hs)) as [[r s] o].
  cbn [after effects fst snd] in *. intros Hg.
  destruct (H i Hg) as (Ho & Hl). subst o.
  split; [right; left; reflexivity|].
  split; [destruct (itype i); reflexivity|].
  split; [reflexivity|].
  unfold _signal_handler. cbn [station handlers].
  assert (Ht : InterruptionType_of (InterruptionType_value (itype i)) = Some (itype i))
    by (destruct (itype i); reflexivity).
  rewrite Ht, Hl. reflexivity.
Qed.

End Delivery.

(** X14.  Registering a handler and starting the system both install a
    handler for SIGINT, and the later one wins.  Registration followed by
    [start_system] leaves SIGINT with the shutdown handler, so a handler
    registered for sensor failures is no longer reached, while one
    registered for extreme conditions (SIGBREAK) stays installed;
    [start_system] followed by a registration for sensor failures leaves
    SIGINT with [_signal_handler], so SIGINT no longer requests a shutdown,
    while SIGTERM still does. *)
Theorem start_and_register_compete type handler thread before (hs : HandledSystem) :
  let reg := (register_handler type handler hs).2 in
  let start := effects (start_system thread (station hs)) in
  installed (reg ++ start) SIGINT before = Some handle_shutdown /\
  installed (reg ++ start) SIGTERM before = Some handle_shutdown /\
  installed (reg ++ start) SIGBREAK before =
    match type with
    | EXTREME_CONDITIONS => Some signal_handler
    | SENSOR_FAILURE => before
    end /\
  installed (start ++ reg) SIGINT before =
    match type with
    | SENSOR_FAILURE => Some signal_handler
    | EXTREME_CONDITIONS => Some handle_shutdown
    end /\
  installed (start ++ reg) SIGTERM before = Some handle_shutdown.
Proof.
  cbv zeta. rewrite start_system_run. destruct type; repeat split.
Qed.

(** A station whose last interruption is a sensor failure. *)
Lemma register_then_dispatch_witness :
  let i := mkInterruption SENSOR_FAILURE 1%Z "A" "⚠ SENSOR FAILURE: disconnected"
             (mkSensorData 0.0 0.0 0.0 0.0 DISCONNECTED 1%Z) in
  let hs := {| station := set_last_interruption (Some i) (new_InterruptionSystem "A");
               handlers := fun _ => None |} in
  _last_interruption (station hs) = Some i /\
  _signal_handler SIGBREAK (register_handler EXTREME_CONDITIONS 7%nat hs).1 =
  Some [(7%nat, i)].
Proof.
  cbv zeta. split; [reflexivity|].
  match goal with
  | |- _signal_handler _ (register_handler ?t ?h ?hs).1 = Some [(_, ?i)] =>
      exact (proj1 (proj2 (proj2 (register_then_dispatch t h hs))) i eq_refl)
  end.
Defined.

(** An extreme tide on a station with a handler for extreme conditions. *)
Lemma evaluation_reaches_handler_witness :
  let data := mkSensorData 5.0 20.0 1010.0 10.0 FUNCTIONING 0%Z in
  let hs := {| station := new_InterruptionSystem "A";
               handlers := fun t => match t with
                                    | EXTREME_CONDITIONS => Some 7%nat
                                    | SENSOR_FAILURE => None
                                    end |} in
  let i := mkInterruption EXTREME_CONDITIONS 3%Z "A" "🚨 Extreme tide: m" data in
  generated (effects (on_station (_evaluate_conditions no_digits 3%Z data) hs)) = [i] /\
  _signal_handler SIGBREAK
    (after (on_station (_evaluate_conditions no_digits 3%Z data) hs)) = Some [(7%nat, i)].
Proof.
  cbv zeta.
  match goal with
  | |- ?G = [?i] /\ _ =>
      assert (Hg : G = [i]) by (vm_compute; reflexivity);
      split; [exact Hg|]
  end.
  match goal with
  | Hg : generated (effects (on_station (_evaluate_conditions ?f ?n ?d) ?hs)) = [?i] |- _ =>
      exact (proj2 (proj2 (proj2 (evaluation_reaches_handler f n d hs i Hg))))
  end.
Defined.

(** ** 23. All stations at once *)

Lemma for_each_station_returns method pause order (m : StationManager) :
  NoDup order ->
  (forall station_id s, station_id ∈ order -> stations m !! station_id = Some s ->
     outcome (method station_id s) = Ret tt) ->
  (for_each_station method pause order m).1.1 = Ret tt /\
  forall station_id,
    stations (for_each_station method pause order m).1.2 !! station_id =
    if decide (station_id ∈ order)
    then (fun s => after (method station_id s)) <$> stations m !! station_id
    else stations m !! station_id.
Proof.
  revert m. induction order as [|id0 rest IH]; intros m Hnd Hret.
  - split; [reflexivity|]. intros station_id. cbn [for_each_station fst snd].
    destruct (decide (station_id ∈ [])) as [H|H]; [|reflexivity].
    apply elem_of_nil in H. contradiction.
  - apply NoDup_cons in Hnd as [Hfresh Hnd]. cbn [for_each_station].
    destruct (stations m !! id0) as [s0|] eqn:E0.
    + pose proof (Hret id0 s0 (list_elem_of_here _ _) E0) as Hr0.
      destruct (method id0 s0) as [[r0 s0'] out0] eqn:Em.
      cbn [outcome fst] in Hr0. subst r0.
      set (m1 := {| stations := <[id0 := s0']> (stations m) |}).
      destruct (IH m1 Hnd) as [IH1 IH2].
      { intros station_id s Hin Hs. apply (Hret station_id s).
        - apply list_elem_of_further, Hin.
        - cbn [stations m1] in Hs. rewrite lookup_insert_ne in Hs; [exact Hs|].
          intros ->. contradiction. }
      destruct (for_each_station method pause rest m1) as [[r2 m2] out2].
      cbn [fst snd] in *. split; [exact IH1|].
      intros station_id. rewrite IH2. cbn [stations m1].
      destruct (decide (station_id = id0)) as [->|Hne].
      * rewrite lookup_insert_eq, E0.
        destruct (decide (id0 ∈ rest)) as [H|_]; [contradiction|].
        destruct (decide (id0 ∈ id0 :: rest)) as [_|H];
          [|exfalso; apply H, list_elem_of_here].
        cbn. rewrite Em. reflexivity.
      * rewrite lookup_insert_ne by congruence.
        destruct (decide (station_id ∈ rest)) as [H|H];
          destruct (decide (station_id ∈ id0 :: rest)) as [H'|H']; try reflexivity.
        -- exfalso. apply H', list_elem_of_further, H.
        -- apply elem_of_cons in H' as [H'|H']; [congruence|contradiction].
    + destruct (IH m Hnd) as [IH1 IH2].
      { intros station_id s Hin Hs. apply (Hret station_id s); [|exact Hs].
        apply list_elem_of_further, Hin. }
      split; [exact IH1|]. intros station_id. rewrite IH2.
      destruct (decide (station_id = id0)) as [->|Hne].
      * rewrite E0.
        destruct (decide (id0 ∈ rest)) as [H|_]; [contradiction|].
        destruct (decide (id0 ∈ id0 :: rest)); reflexivity.
      * destruct (decide (station_id ∈ rest)) as [H|H];
          destruct (decide (station_id ∈ id0 :: rest)) as [H'|H']; try reflexivity.
        -- exfalso. apply H', list_elem_of_further, H.
        -- apply elem_of_cons in H' as [H'|H']; [congruence|contradiction].
Qed.


Lemma stop_system_returns alive (s : InterruptionSystem) :
  statistics_consistent s -> outcome (stop_system alive s) = Ret tt.
Proof.
  intros Hs. destruct (running s) eqn:E.
  - rewrite (stop_system_running_run alive s E). cbv zeta. cbn [outcome fst].
    apply show_final_statistics_returns.
    destruct Hs as (f & e & H). exists f, e. exact H.
  - rewrite (stop_system_stopped alive s E). reflexivity.
Qed.


(** X16.  On a manager all of whose stations have consistent statistics
    (as every station built by [add_station] and then used has),
    [stop_all_stations] never raises and leaves every station not running,
    with its configuration and statistics as they were; a station that was
    not running is left exactly as it was. *)
Theorem stop_all_stops_each order alive_of (m : StationManager) :
  lists_stations order m ->
  (forall station_id s, stations m !! station_id = Some s -> statistics_consistent s) ->
  let r := stop_all_stations order alive_of m in
  r.1.1 = Ret tt /\
  (forall station_id,
     stations r.1.2 !! station_id =
     (fun s => after (stop_system (alive_of station_id) s)) <$>
       stations m !! station_id) /\
  (forall station_id s, stations m !! station_id = Some s ->
     exists s', stations r.1.2 !! station_id = Some s' /\
       running s' = false /\ config s' = config s /\ statistics s' = statistics s /\
       (running s = false -> s' = s)).
Proof.
  intros [Hnd Hlist] Hcons. cbv zeta. unfold stop_all_stations.
  destruct (for_each_station_returns
              (fun station_id => stop_system (alive_of station_id)) []
              order m Hnd) as [H1 H2].
  { intros station_id s _ Hs. apply stop_system_returns, (Hcons station_id s Hs). }
  destruct (for_each_station _ _ order m) as [[r m1] out]. cbn [fst snd] in *.
  subst r. cbn [fst snd].
  assert (Hall : forall station_id,
            stations m1 !! station_id =
            (fun s => after (stop_system (alive_of station_id) s)) <$>
              stations m !! station_id).
  { intros station_id. rewrite H2.
    destruct (decide (station_id ∈ order)) as [_|Hn]; [reflexivity|].
    destruct (stations m !! station_id) eqn:E; [|reflexivity].
    exfalso. apply Hn, Hlist. eauto. }
  split; [reflexivity|]. split; [exact Hall|].
  intros station_id s Hs. rewrite Hall, Hs.
  exists (after (stop_system (alive_of station_id) s)). split; [reflexivity|].
  destruct (running s) eqn:E.
  - destruct (stop_system_running (alive_of station_id) s E) as [-> _].
    repeat split. discriminate.
  - rewrite (stop_system_stopped (alive_of station_id) s E). repeat split. exact E.
Qed.

Lemma start_all_lookup order thread_of (m : StationManager) :
  lists_stations order m ->
  (start_all_stations order thread_of m).1.1 = Ret tt /\
  forall station_id,
    stations (start_all_stations order thread_of m).1.2 !! station_id =
    (fun s => after (start_system (thread_of station_id) s)) <$>
      stations m !! station_id.
Proof.
  intros [Hnd Hlist]. unfold start_all_stations.
  destruct (for_each_station_returns
              (fun station_id => start_system (thread_of station_id)) [ManagerSleep]
              order m Hnd) as [H1 H2].
  { intros station_id s _ _. rewrite start_system_run. reflexivity. }
  destruct (for_each_station _ _ order m) as [[r m1] out]. cbn [fst snd] in *.
  subst r. cbn [fst snd]. split; [reflexivity|].
  intros station_id. rewrite H2.
  destruct (decide (station_id ∈ order)) as [_|Hn]; [reflexivity|].
  destruct (stations m !! station_id) eqn:E; [|reflexivity].
  exfalso. apply Hn, Hlist. eauto.
Qed.

Lemma stop_all_lookup order alive_of (m : StationManager) :
  lists_stations order m ->
  (forall station_id s, stations m !! station_id = Some s -> statistics_consistent s) ->
  (stop_all_stations order alive_of m).1.1 = Ret tt /\
  forall station_id,
    stations (stop_all_stations order alive_of m).1.2 !! station_id =
    (fun s => after (stop_system (alive_of station_id) s)) <$>
      stations m !! station_id.
Proof.
  intros [Hnd Hlist] Hcons. unfold stop_all_stations.
  destruct (for_each_station_returns
              (fun station_id => stop_system (alive_of station_id)) []
              order m Hnd) as [H1 H2].
  { intros station_id s _ Hs. apply stop_system_returns, (Hcons station_id s Hs). }
  destruct (for_each_station _ _ order m) as [[r m1] out]. cbn [fst snd] in *.
  subst r. cbn [fst snd]. split; [reflexivity|].
  intros station_id. rewrite H2.
  destruct (decide (station_id ∈ order)) as [_|Hn]; [reflexivity|].
  destruct (stations m !! station_id) eqn:E; [|reflexivity].
  exfalso. apply Hn, Hlist. eauto.
Qed.

Lemma stop_system_not_running alive (s : InterruptionSystem) :
  running (after (stop_system alive s)) = false.
Proof.
  destruct (running s) eqn:E.
  - destruct (stop_system_running alive s E) as [-> _]. reflexivity.
  - rewrite (stop_system_stopped alive s E). exact E.
Qed.

(** X17.  A [with manager.run_all_stations()] block that leaves the
    manager with the same stations, all with consistent statistics, ends
    with every station not running and with the outcome of the block. *)
Theorem run_all_stations_stops_each {A} order thread_of alive_of
    (block : StationManager -> Res A * StationManager * list ManagerEvent)
    (m : StationManager) :
  lists_stations order m ->
  let b := block (start_all_stations order thread_of m).1.2 in
  lists_stations order b.1.2 ->
  (forall station_id s, stations b.1.2 !! station_id = Some s ->
     statistics_consistent s) ->
  let r := run_all_stations order thread_of alive_of block m in
  r.1.1 = b.1.1 /\
  (forall station_id, is_Some (stations r.1.2 !! station_id) <->
                      is_Some (stations b.1.2 !! station_id)) /\
  (forall station_id s', stations r.1.2 !! station_id = Some s' -> running s' = false).
Proof.
  intros Hm. cbv zeta. intros Hb Hcons. unfold run_all_stations.
  destruct (start_all_lookup order thread_of m Hm) as (Hs1 & _).
  destruct (start_all_stations order thread_of m) as [[r1 m1] o1].
  cbn [fst snd] in *. subst r1.
  destruct (block m1) as [[rb mb] ob]. cbn [fst snd] in *.
  destruct (stop_all_lookup order alive_of mb Hb Hcons) as (Hr & Hall).
  destruct (stop_all_stations order alive_of mb) as [[r2 m2] o2].
  cbn [fst snd] in *. subst r2. cbn [fst snd].
  split; [reflexivity|]. split.
  - intros station_id. rewrite Hall, fmap_is_Some. tauto.
  - intros station_id s' Hs'. rewrite Hall in Hs'.
    destruct (stations mb !! station_id) as [s|]; [|discriminate].
    change (Some (after (stop_system (alive_of station_id) s)) = Some s') in Hs'.
    injection Hs' as <-. apply stop_system_not_running.
Qed.

Lemma summary_loop_total order (m : StationManager) acc :
  (forall station_id s, stations m !! station_id = Some s -> statistics_consistent s) ->
  exists lines,
    summary_loop order m acc =
    (Ret (acc + sum_counter "total_interruptions" order m)%Z, lines) /\
    sum_counter "total_interruptions" order m =
    (sum_counter "sensor_failure" order m + sum_counter "extreme_conditions" order m)%Z.
Proof.
  intros Hcons. revert acc. induction order as [|id0 rest IH]; intros acc.
  - exists []. cbn. split; [apply f_equal2; [f_equal; lia|reflexivity]|reflexivity].
  - cbn [summary_loop sum_counter].
    destruct (stations m !! id0) as [s|] eqn:E.
    + destruct (Hcons id0 s E) as (f & e & Ht & Hf & He & _).
      unfold summary_of_station, get_system_state. cbn [state_statistics state_running].
      unfold counter in *. rewrite Ht, Hf, He. cbn [default].
      destruct (IH (acc + (f + e))%Z) as (lines & Hl & Hsum). rewrite Hl.
      eexists. split; [apply f_equal2; [f_equal; unfold id; lia|reflexivity]|].
      unfold id. lia.
    + destruct (IH acc) as (lines & Hl & Hsum). rewrite Hl.
      eexists. split; [apply f_equal2; [f_equal; unfold id; lia|reflexivity]|].
      unfold id. lia.
Qed.

(** X18.  On a manager all of whose stations have consistent statistics,
    [show_general_summary] returns, and the system total it prints last
    (before the closing rule) is the sum of the stations' totals, which is
    the sum of all sensor-failure counts plus the sum of all
    extreme-conditions counts. *)
Theorem summary_total_is_sum order (m : StationManager) :
  (forall station_id s, stations m !! station_id = Some s -> statistics_consistent s) ->
  exists lines,
    show_general_summary order m =
    (Ret tt,
     [SummaryRule; SummaryTitle; SummaryRule] ++ lines
     ++ [SystemTotal (sum_counter "total_interruptions" order m); SummaryRule]) /\
    sum_counter "total_interruptions" order m =
    (sum_counter "sensor_failure" order m + sum_counter "extreme_conditions" order m)%Z.
Proof.
  intros Hcons. unfold show_general_summary.
  destruct (summary_loop_total order m 0%Z Hcons) as (lines & Hl & Hsum).
  rewrite Hl. exists lines. split; [|exact Hsum]. reflexivity.
Qed.

Lemma two_stations_lookup station_id :
  stations two_stations !! station_id =
  if decide (station_id = "B") then Some (new_InterruptionSystem "B")
  else if decide (station_id = "A") then Some (new_InterruptionSystem "A")
  else None.
Proof.
  unfold two_stations. rewrite !add_station_run. cbv zeta.
  cbn [after fst snd stations overrides updated new_StationManager].
  destruct (decide (station_id = "B")) as [->|HB].
  - rewrite lookup_insert_eq. reflexivity.
  - rewrite lookup_insert_ne by congruence.
    destruct (decide (station_id = "A")) as [->|HA].
    + rewrite lookup_insert_eq. reflexivity.
    + rewrite lookup_insert_ne by congruence. apply lookup_empty.
Qed.

Lemma two_stations_listed : lists_stations ["A"; "B"] two_stations.
Proof.
  split; [apply (bool_decide_unpack _); vm_compute; reflexivity|].
  intros station_id. rewrite two_stations_lookup, !elem_of_cons.
  destruct (decide (station_id = "B")) as [->|HB]; [split; eauto|].
  destruct (decide (station_id = "A")) as [->|HA]; [split; eauto|].
  split.
  - intros [H|[H|H]]; try congruence. apply elem_of_nil in H. contradiction.
  - intros [x Hx]. discriminate.
Qed.

Lemma two_stations_consistent station_id s :
  stations two_stations !! station_id = Some s -> statistics_consistent s.
Proof.
  rewrite two_stations_lookup.
  destruct (decide (station_id = "B")); [intros [= <-]; apply new_consistent|].
  destruct (decide (station_id = "A")); [intros [= <-]; apply new_consistent|].
  discriminate.
Qed.


(** Stopping the two stations of [two_stations]. *)
Lemma stop_all_stops_each_witness :
  lists_stations ["A"; "B"] two_stations /\
  (stop_all_stations ["A"; "B"] (fun _ => true) two_stations).1.1 = Ret tt.
Proof.
  split; [exact two_stations_listed|].
  exact (proj1 (stop_all_stops_each ["A"; "B"] (fun _ => true) two_stations
                  two_stations_listed two_stations_consistent)).
Defined.

(** The summary of [two_stations]: the total is 0 + 0. *)
Lemma summary_total_is_sum_witness :
  sum_counter "total_interruptions" ["A"; "B"] two_stations =
  (sum_counter "sensor_failure" ["A"; "B"] two_stations
   + sum_counter "extreme_conditions" ["A"; "B"] two_stations)%Z.
Proof.
  destruct (summary_total_is_sum ["A"; "B"] two_stations two_stations_consistent)
    as (lines & _ & H).
  exact H.
Defined.

(** A block that does nothing, around the two stations of [two_stations]. *)
Lemma run_all_stations_stops_each_witness :
  let block := fun m : StationManager => (Ret tt, m, @nil ManagerEvent) in
  lists_stations ["A"; "B"] two_stations /\
  (run_all_stations ["A"; "B"] (fun _ => 1%nat) (fun _ => true) block two_stations).1.1
  = Ret tt.
Proof.
  cbv zeta. split; [exact two_stations_listed|].
  destruct (start_all_lookup ["A"; "B"] (fun _ => 1%nat) two_stations
              two_stations_listed) as (_ & Hall).
  assert (Hkeys : forall station_id,
            is_Some (stations (start_all_stations ["A"; "B"] (fun _ => 1%nat)
                                 two_stations).1.2 !! station_id) <->
            is_Some (stations two_stations !! station_id))
    by (intros station_id; rewrite Hall, fmap_is_Some; tauto).
  refine (proj1 (run_all_stations_stops_each ["A"; "B"] (fun _ => 1%nat) (fun _ => true)
                   (fun m : StationManager => (Ret tt, m, @nil ManagerEvent))
                   two_stations two_stations_listed _ _)).
  - cbn [fst snd]. split; [exact (proj1 two_stations_listed)|].
    intros station_id. rewrite Hkeys. apply two_stations_listed.
  - cbn [fst snd]. intros station_id s Hs. rewrite Hall in Hs.
    destruct (stations two_stations !! station_id) as [s0|] eqn:E; [|discriminate].
    injection Hs as <-. rewrite start_system_run.
    destruct (two_stations_consistent station_id s0 E) as (f & e & H).
    exists f, e. exact H.
Defined.

(** ** 24. The console monitor *)

Lemma handle_signals_cons sig now1 now2 rest (m : Monitor.InterruptionMonitor) :
  Monitor.handle_signals ((sig, now1, now2) :: rest) m =
  Monitor.handle_signals rest
    match Monitor._handle_signal sig now1 now2 m with
    | Some (m', _) => m'
    | None => m
    end.
Proof. reflexivity. Qed.

Lemma handle_signals_counts signals (m : Monitor.InterruptionMonitor) :
  let m' := Monitor.handle_signals signals m in
  Monitor.sensor_failure (Monitor.statistics m') =
    (Monitor.sensor_failure (Monitor.statistics m) + count_signal SIGINT signals)%Z /\
  Monitor.extreme_conditions (Monitor.statistics m') =
    (Monitor.extreme_conditions (Monitor.statistics m) + count_signal SIGBREAK signals)%Z /\
  Monitor.total_interruptions (Monitor.statistics m') =
    (Monitor.total_interruptions (Monitor.statistics m)
     + count_signal SIGINT signals + count_signal SIGBREAK signals)%Z /\
  Monitor.running m' = Monitor.running m /\
  Monitor.current_input m' = Monitor.current_input m /\
  Monitor.showing_submenu m' = Monitor.showing_submenu m /\
  Monitor.current_menu_content m' = Monitor.current_menu_content m /\
  Monitor.config m' = Monitor.config m.
Proof.
  revert m. induction signals as [|[[sig now1] now2] rest IH]; intros m.
  - cbn. repeat split; lia.
  - cbv zeta. rewrite handle_signals_cons.
    destruct sig; cbn [Monitor._handle_signal InterruptionType_of];
      match goal with
      | |- context [Monitor.handle_signals rest ?m1] =>
          specialize (IH m1); cbv zeta in IH;
          destruct IH as (I1 & I2 & I3 & I4 & I5 & I6 & I7 & I8);
          rewrite I1, I2, I3, I4, I5, I6, I7, I8
      end;
      cbn; repeat split; lia.
Qed.

(** X19.  Starting from a new monitor, after any sequence of signals
    handled by [_handle_signal], the total is the number of SIGINT and
    SIGBREAK signals received, the sensor-failure count is the number of
    SIGINT and the extreme-conditions count the number of SIGBREAK, so the
    total is always the sum of the two; SIGTERM, which is no interruption
    type, makes [_handle_signal] raise and changes nothing; the menu state
    is never touched. *)
Theorem monitor_statistics_count_signals signals :
  let m := Monitor.handle_signals signals Monitor.new_InterruptionMonitor in
  Monitor.sensor_failure (Monitor.statistics m) = count_signal SIGINT signals /\
  Monitor.extreme_conditions (Monitor.statistics m) = count_signal SIGBREAK signals /\
  Monitor.total_interruptions (Monitor.statistics m) =
    (Monitor.sensor_failure (Monitor.statistics m)
     + Monitor.extreme_conditions (Monitor.statistics m))%Z /\
  (forall now1 now2, Monitor._handle_signal SIGTERM now1 now2 m = None) /\
  (forall sig now1 now2 m' out,
     Monitor._handle_signal sig now1 now2 m = Some (m', out) ->
     Monitor.last_update (Monitor.statistics m') = Some now1 /\
     Monitor.total_interruptions (Monitor.statistics m') =
       (Monitor.total_interruptions (Monitor.statistics m) + 1)%Z) /\
  Monitor.showing_submenu m = false /\ Monitor.current_input m = "" /\
  Monitor.running m = true.
Proof.
  cbv zeta.
  destruct (handle_signals_counts signals Monitor.new_InterruptionMonitor)
    as (H1 & H2 & H3 & H4 & H5 & H6 & _).
  cbv zeta in *.
  set (m := Monitor.handle_signals signals Monitor.new_InterruptionMonitor) in *.
  cbn in H1, H2, H3, H4, H5, H6.
  split; [exact H1|]. split; [exact H2|]. split; [lia|]. split; [reflexivity|].
  split; [|split; [exact H6|split; [exact H5|exact H4]]].
  intros sig now1 now2 m' out H.
  destruct sig; cbn in H; [| |discriminate]; injection H as Hm _; subst m';
    cbn; split; reflexivity.
Qed.

Section MenuFacts.

Variable _modify_thresholds : Monitor.InterruptionMonitor -> Monitor.InterruptionMonitor.

Lemma set_current_input_same (m : Monitor.InterruptionMonitor) :
  Monitor.set_current_input (Monitor.current_input m) m = m.
Proof. destruct m; reflexivity. Qed.

(** X20.  While a submenu is shown, a backspace with nothing typed does
    not close it: [_check_input] calls [_process_command "0"], but
    [_process_command] reads the command from [current_input], which is
    empty, so the monitor is left exactly as it was.  Typing 0 and
    pressing Enter does close the submenu. *)
Theorem backspace_does_not_go_back now1 now2 (m : Monitor.InterruptionMonitor) :
  Monitor.showing_submenu m = true ->
  (Monitor.current_input m = "" ->
   Monitor._check_input _modify_thresholds (Some (Ascii.ascii_of_nat 8)) now1 now2 m
   = (m, [])) /\
  (Monitor.current_input m = "0" ->
   Monitor._check_input _modify_thresholds (Some (Ascii.ascii_of_nat 13)) now1 now2 m
   = (Monitor.set_showing_submenu false
        (Monitor.set_current_menu_content None (Monitor.set_current_input "" m)), [])) /\
  (forall command command',
     Monitor._process_command _modify_thresholds command now1 now2 m =
     Monitor._process_command _modify_thresholds command' now1 now2 m).
Proof.
  intros Hs. split; [|split].
  - intros Hi. unfold Monitor._check_input.
    change (Monitor.decode (Ascii.ascii_of_nat 8)) with Monitor.BS.
    cbn [String.eqb orb]. change (String.eqb Monitor.BS Monitor.CR) with false.
    change (String.eqb Monitor.BS Monitor.LF) with false.
    change (String.eqb Monitor.BS Monitor.BS) with true. cbn [orb].
    rewrite Hi, Hs. unfold Monitor._process_command. rewrite Hi.
    change (String.eqb "" "0") with false. change (String.eqb "" Monitor.BS) with false.
    cbn [orb]. change (Monitor.showing_submenu (Monitor.set_current_input "" m))
      with (Monitor.showing_submenu m). rewrite Hs.
    rewrite <- Hi at 1. rewrite set_current_input_same. reflexivity.
  - intros Hi. unfold Monitor._check_input.
    change (Monitor.decode (Ascii.ascii_of_nat 13)) with Monitor.CR.
    change (String.eqb Monitor.CR Monitor.CR) with true. cbn [orb].
    rewrite Hi. unfold Monitor._process_command. rewrite Hi. reflexivity.
  - reflexivity.
Qed.

(** X21.  While a submenu is shown, Enter with any input other than 0
    (or a backspace character) only clears the input: no option is run,
    the panel stays. *)
Theorem submenu_ignores_commands command now1 now2 (m : Monitor.InterruptionMonitor) :
  Monitor.showing_submenu m = true ->
  Monitor.current_input m <> "0" ->
  Monitor.current_input m <> Monitor.BS ->
  Monitor._process_command _modify_thresholds command now1 now2 m =
  (Monitor.set_current_input "" m, []).
Proof.
  intros Hs H0 Hb. unfold Monitor._process_command.
  destruct (String.eqb_spec (Monitor.current_input m) "0") as [E|_]; [contradiction|].
  destruct (String.eqb_spec (Monitor.current_input m) Monitor.BS) as [E|_];
    [contradiction|].
  cbn [orb]. change (Monitor.showing_submenu (Monitor.set_current_input "" m))
    with (Monitor.showing_submenu m). rewrite Hs. reflexivity.
Qed.

(** X22.  At the main menu, Enter runs the option typed and clears the
    input: 1, 3 and 4 show the configuration, statistics and summary
    panels, built from the monitor's current values, and mark a submenu as
    shown; 5 clears [running] (and leaves the submenu mark set); anything
    else but 0 and 2 prints the invalid-option line and stays at the main
    menu. *)
Theorem main_menu_options command now1 now2 (m : Monitor.InterruptionMonitor) :
  Monitor.showing_submenu m = false ->
  let r := Monitor._process_command _modify_thresholds command now1 now2 m in
  (Monitor.current_input m = "1" ->
   Monitor.current_menu_content r.1 = Some (Monitor.ConfigurationPanel (Monitor.config m)) /\
   Monitor.showing_submenu r.1 = true /\ Monitor.current_input r.1 = "" /\ r.2 = []) /\
  (Monitor.current_input m = "3" ->
   Monitor.current_menu_content r.1 = Some (Monitor.StatisticsPanel (Monitor.statistics m)) /\
   Monitor.showing_submenu r.1 = true /\ Monitor.current_input r.1 = "" /\ r.2 = []) /\
  (Monitor.current_input m = "4" ->
   Monitor.current_menu_content r.1 =
     Some (Monitor.SummaryPanel now2 (Monitor.statistics m) (Monitor.config m)) /\
   Monitor.last_summary_update r.1 = Some now1 /\
   Monitor.showing_submenu r.1 = true /\ Monitor.current_input r.1 = "" /\ r.2 = []) /\
  (Monitor.current_input m = "5" ->
   Monitor.running r.1 = false /\ Monitor.showing_submenu r.1 = true /\
   Monitor.current_input r.1 = "" /\ r.2 = []) /\
  (Monitor.current_input m <> "0" -> Monitor.current_input m <> Monitor.BS ->
   Monitor.current_input m <> "1" -> Monitor.current_input m <> "2" ->
   Monitor.current_input m <> "3" -> Monitor.current_input m <> "4" ->
   Monitor.current_input m <> "5" ->
   r = (Monitor.set_current_input "" m, [Monitor.InvalidOption])).
Proof.
  intros Hs r. subst r. unfold Monitor._process_command.
  change (Monitor.showing_submenu (Monitor.set_current_input "" m))
    with (Monitor.showing_submenu m). rewrite Hs.
  split; [intros Hi; rewrite Hi; cbn; repeat split|].
  split; [intros Hi; rewrite Hi; cbn; repeat split|].
  split; [intros Hi; rewrite Hi; cbn; repeat split|].
  split; [intros Hi; rewrite Hi; cbn; repeat split|].
  intros H0 Hb H1 H2 H3 H4 H5.
  repeat match goal with
         | |- context [String.eqb (Monitor.current_input m) ?x] =>
             destruct (String.eqb_spec (Monitor.current_input m) x) as [E|_];
             [contradiction|]
         end.
  cbn [orb]. f_equal. destruct m; cbn in *. subst. reflexivity.
Qed.

Lemma decode_cases byte :
  Monitor.decode byte = String byte "" \/ Monitor.decode byte = "".
Proof. unfold Monitor.decode. destruct (_ <? _)%nat; auto. Qed.

(** X23.  A key that is neither Enter nor backspace is typed into the
    input only if it is one of the digits 0 to 5; every other key, a digit
    from 6 to 9 and a byte that is no ASCII character included, leaves the
    monitor as it was, and so does a poll without a key. *)
Theorem only_digits_0_to_5_are_typed byte now1 now2 (m : Monitor.InterruptionMonitor) :
  byte <> Ascii.ascii_of_nat 13 -> byte <> Ascii.ascii_of_nat 10 ->
  byte <> Ascii.ascii_of_nat 8 ->
  Monitor._check_input _modify_thresholds (Some byte) now1 now2 m =
  (if (48 <=? Ascii.nat_of_ascii byte)%nat && (Ascii.nat_of_ascii byte <=? 53)%nat
   then (Monitor.set_current_input (Monitor.current_input m +:+ String byte "") m, [])
   else (m, [])) /\
  Monitor._check_input _modify_thresholds None now1 now2 m = (m, []).
Proof.
  intros Hcr Hlf Hbs. split; [|reflexivity].
  unfold Monitor._check_input.
  destruct byte as [[] [] [] [] [] [] [] []];
    try (exfalso; apply Hcr; reflexivity);
    try (exfalso; apply Hlf; reflexivity);
    try (exfalso; apply Hbs; reflexivity);
    reflexivity.
Qed.

End MenuFacts.

(** A submenu shown with nothing typed: backspace changes nothing. *)
Lemma backspace_does_not_go_back_witness :
  let m := Monitor.set_showing_submenu true Monitor.new_InterruptionMonitor in
  Monitor.showing_submenu m = true /\ Monitor.current_input m = "" /\
  Monitor._check_input (fun m => m) (Some (Ascii.ascii_of_nat 8)) 0%Z 0%Z m = (m, []).
Proof.
  cbv zeta.
  assert (Hs : Monitor.showing_submenu
                 (Monitor.set_showing_submenu true Monitor.new_InterruptionMonitor) = true)
    by reflexivity.
  assert (Hi : Monitor.current_input
                 (Monitor.set_showing_submenu true Monitor.new_InterruptionMonitor) = "")
    by reflexivity.
  split; [exact Hs|]. split; [exact Hi|].
  exact (proj1 (backspace_does_not_go_back (fun m => m) 0%Z 0%Z _ Hs) Hi).
Defined.

(** A submenu shown with 3 typed: Enter only clears the input. *)
Lemma submenu_ignores_commands_witness :
  let m := Monitor.set_current_input "3"
             (Monitor.set_showing_submenu true Monitor.new_InterruptionMonitor) in
  Monitor.showing_submenu m = true /\
  Monitor._process_command (fun m => m) "3" 0%Z 0%Z m =
  (Monitor.set_current_input "" m, []).
Proof.
  cbv zeta. split; [reflexivity|].
  apply (submenu_ignores_commands (fun m => m)).
  - reflexivity.
  - simpl. discriminate.
  - simpl. discriminate.
Defined.

(** Option 5 at the main menu of a new monitor. *)
Lemma main_menu_options_witness :
  let m := Monitor.set_current_input "5" Monitor.new_InterruptionMonitor in
  Monitor.showing_submenu m = false /\ Monitor.current_input m = "5" /\
  Monitor.running (Monitor._process_command (fun m => m) "5" 0%Z 0%Z m).1 = false.
Proof.
  cbv zeta.
  assert (Hs : Monitor.showing_submenu
                 (Monitor.set_current_input "5" Monitor.new_InterruptionMonitor) = false)
    by reflexivity.
  split; [exact Hs|]. split; [reflexivity|].
  destruct (main_menu_options (fun m => m) "5" 0%Z 0%Z _ Hs) as (_ & _ & _ & H & _).
  exact (proj1 (H eq_refl)).
Defined.

(** The key 7 on a new monitor: nothing is typed. *)
Lemma only_digits_0_to_5_are_typed_witness :
  Ascii.ascii_of_nat 55 <> Ascii.ascii_of_nat 13 /\
  Monitor._check_input (fun m => m) (Some (Ascii.ascii_of_nat 55)) 0%Z 0%Z
    Monitor.new_InterruptionMonitor = (Monitor.new_InterruptionMonitor, []).
Proof.
  assert (H13 : Ascii.ascii_of_nat 55 <> Ascii.ascii_of_nat 13) by (vm_compute; discriminate).
  assert (H10 : Ascii.ascii_of_nat 55 <> Ascii.ascii_of_nat 10) by (vm_compute; discriminate).
  assert (H8 : Ascii.ascii_of_nat 55 <> Ascii.ascii_of_nat 8) by (vm_compute; discriminate).
  split; [exact H13|].
  exact (proj1 (only_digits_0_to_5_are_typed (fun m => m) (Ascii.ascii_of_nat 55) 0%Z 0%Z
                  Monitor.new_InterruptionMonitor H13 H10 H8)).
Defined.

(** ** 25. Managers built with [add_station] *)

Lemma add_stations_snoc adds key custom_config (m : StationManager) :
  add_stations (adds ++ [(key, custom_config)]) m =
  after (add_station key custom_config (add_stations adds m)).
Proof. unfold add_stations. rewrite fold_left_app. reflexivity. Qed.

Lemma added_stations_lookup adds :
  (forall key s, stations (add_stations adds new_StationManager) !! key = Some s ->
     exists custom_config,
       In (key, custom_config) adds /\
       s = set_config (updated (overrides custom_config) default_config)
             (new_InterruptionSystem key)) /\
  (forall key custom_config, In (key, custom_config) adds ->
     is_Some (stations (add_stations adds new_StationManager) !! key)).
Proof.
  induction adds as [|[key0 cc0] adds [IH1 IH2]] using rev_ind.
  - split.
    + intros key s H. cbn in H. rewrite lookup_empty in H. discriminate.
    + intros key cc [].
  - rewrite add_stations_snoc, add_station_run. cbv zeta.
    cbn [after fst snd stations]. split.
    + intros key s H. destruct (decide (key = key0)) as [->|Hne].
      * rewrite lookup_insert_eq in H. exists cc0. split.
        -- apply in_or_app. right. left. reflexivity.
        -- congruence.
      * rewrite lookup_insert_ne in H by congruence.
        destruct (IH1 key s H) as (cc & Hin & Hs). exists cc. split; [|exact Hs].
        apply in_or_app. left. exact Hin.
    + intros key cc Hin. destruct (decide (key = key0)) as [->|Hne].
      * rewrite lookup_insert_eq. eauto.
      * rewrite lookup_insert_ne by congruence.
        apply in_app_or in Hin as [Hin|[Hin|[]]]; [exact (IH2 key cc Hin)|congruence].
Qed.

(** X24.  In a manager built from an empty one by any sequence of
    [add_station] calls, every identifier is bound to a station that
    carries that identifier, is not running, has the initial statistics
    and exactly the configuration keys of the constructor, and is the
    station one of the calls made for that identifier; an identifier is
    bound exactly when some call named it. *)
Theorem added_stations_are_fresh adds :
  let m := add_stations adds new_StationManager in
  (forall key s, stations m !! key = Some s ->
     station_id s = key /\ running s = false /\
     statistics s = initial_statistics /\ statistics_consistent s /\ keys_intact s /\
     exists custom_config,
       In (key, custom_config) adds /\
       s = set_config (updated (overrides custom_config) default_config)
             (new_InterruptionSystem key)) /\
  (forall key, is_Some (stations m !! key) <->
               exists custom_config, In (key, custom_config) adds).
Proof.
  cbv zeta. destruct (added_stations_lookup adds) as [H1 H2]. split.
  - intros key s Hs. destruct (H1 key s Hs) as (cc & Hin & ->).
    split; [reflexivity|]. split; [reflexivity|]. split; [reflexivity|].
    split; [apply (new_consistent key)|].
    split; [|exists cc; split; [exact Hin|reflexivity]].
    intros k. cbn [config set_config]. apply updated_keeps_keys.
  - intros key. split.
    + intros [s Hs]. destruct (H1 key s Hs) as (cc & Hin & _). eauto.
    + intros [cc Hin]. exact (H2 key cc Hin).
Qed.

(** Two additions under the same identifier. *)
Lemma added_stations_are_fresh_witness :
  let adds := [("A", Some [("high_tide_threshold", 3.0%float)]); ("A", None)] in
  stations (add_stations adds new_StationManager) !! "A" = Some (new_InterruptionSystem "A") /\
  running (new_InterruptionSystem "A") = false.
Proof.
  cbv zeta.
  assert (H : stations (add_stations
                          [("A", Some [("high_tide_threshold", 3.0%float)]); ("A", None)]
                          new_StationManager) !! "A" = Some (new_InterruptionSystem "A")).
  { unfold add_stations. cbn [fold_left]. rewrite !add_station_run. cbv zeta.
    cbn [after fst snd stations]. apply lookup_insert_eq. }
  split; [exact H|].
  exact (proj1 (proj2 (proj1 (added_stations_are_fresh _) "A" _ H))).
Defined.
